(** * QR Code Login System: the presence state machine and its ledger

    A shallow embedding of [users_dao.py] (class [Users]: the Users and
    Logins tables and the statements run against them) and of
    [qr_db_logger.py] (class [QrLogger]: the scan deduplicator
    [process_qr], the state machine [log_qr_activity] and the loop [run]),
    followed by the properties of the specification that can be decided
    on them. *)

From stdpp Require Import gmap strings list fin_maps.

Local Open Scope string_scope.
Local Open Scope list_scope.
Local Open Scope nat_scope.

(** ** Python outcomes

    A call either returns or raises.  What a statement committed before an
    exception stays committed: every [cursor.execute] of the source is
    followed at once by [connection.commit()], so the store is threaded
    through both outcomes. *)

Inductive exn : Type :=
| SQLiteException (msg : string)  (* [raise Exception(error_msg)] of handle_sqlite_error *)
| TypeError                       (* subscripting [None] *)
| IndexError                      (* [codes[:, 0]] on an array without a second axis *)
| UnboundLocalError               (* reading a local that was never assigned *)
| FileNotFoundError               (* [img.save] into a directory that is not there *)
| ValueError                      (* [img.save] under a name without extension *)
| DataOverflowError.              (* [qr.make] on data no QR version holds *)

Inductive outcome (A : Type) : Type :=
| Ok (a : A)
| Raise (e : exn).
Arguments Ok {A} a.
Arguments Raise {A} e.

#[global] Instance exn_eq_dec : EqDecision exn.
Proof. solve_decision. Defined.

(** ** The persisted state *)

(** The TEXT that the [timestamp] and [logoutTime] columns hold. *)
Definition timestamp : Type := string.

(** A reading of [time.time()].  The program uses the float in two ways
    only: it binds it to a TEXT column, where SQLite stores its rendering
    with 15 significant digits, and it prints it with [str].  A reading is
    kept as these two texts; two floats can share the first and differ in
    the second. *)
Record reading : Type := mk_reading {
  sqlite_text : timestamp;
  str_float : string
}.

(** An annotated image handed to [cv2.imwrite] by [show_validation]: the
    message drawn on it, the payload and the timestamp whose [str] are
    drawn under it ([snap_timestamp] is that of the timestamp).  Its file
    name is built from the [str] of the same payload and timestamp. *)
Record snapshot : Type := mk_snapshot {
  snap_message : string;
  snap_code : string;
  snap_timestamp : string
}.

(** A row of [Users], without its primary key [code] (the key of the map). *)
Record user_row : Type := mk_user {
  firstName : string;
  lastName : string;
  email : string;
  status : option string
}.

(** A row of [Logins]. *)
Record login_row : Type := mk_login {
  login_timestamp : timestamp;
  logoutTime : option timestamp;
  userCode : string
}.

#[global] Instance user_row_eq_dec : EqDecision user_row.
Proof. solve_decision. Defined.
#[global] Instance login_row_eq_dec : EqDecision login_row.
Proof. solve_decision. Defined.

(** The database file and the two image directories.  [Users] is keyed by
    its primary key; [Logins] is kept in insertion order. *)
Record store : Type := mk_store {
  Users : gmap string user_row;
  Logins : list login_row;
  qr_images : gmap string string;   (* data/qr_images: file name -> encoded data *)
  log_images : list snapshot        (* data/log_images: the images written, oldest first *)
}.

Definition empty_store : store :=
  {| Users := ∅; Logins := []; qr_images := ∅; log_images := [] |}.

Definition with_Users (f : gmap string user_row → gmap string user_row) (s : store) : store :=
  {| Users := f (Users s); Logins := Logins s;
     qr_images := qr_images s; log_images := log_images s |}.

Definition with_Logins (f : list login_row → list login_row) (s : store) : store :=
  {| Users := Users s; Logins := f (Logins s);
     qr_images := qr_images s; log_images := log_images s |}.

Definition with_qr_images (f : gmap string string → gmap string string) (s : store) : store :=
  {| Users := Users s; Logins := Logins s;
     qr_images := f (qr_images s); log_images := log_images s |}.

Definition with_log_images (f : list snapshot → list snapshot) (s : store) : store :=
  {| Users := Users s; Logins := Logins s;
     qr_images := qr_images s; log_images := f (log_images s) |}.

(** ** The monad of a method call *)

Definition py (A : Type) : Type := store → outcome A * store.

#[global] Instance py_ret : MRet py := λ A a s, (Ok a, s).
#[global] Instance py_bind : MBind py := λ A B k m s,
  match m s with
  | (Ok a, s') => k a s'
  | (Raise e, s') => (Raise e, s')
  end.

Definition raise {A : Type} (e : exn) : py A := λ s, (Raise e, s).
Definition get : py store := λ s, (Ok s, s).
Definition modify (f : store → store) : py unit := λ s, (Ok (), f s).

(** ** The image libraries

    [qr.make] and [img.save] are external: which data and which file
    names they refuse (data too long for a QR symbol, a name with a
    directory part, a name without extension) is theirs to decide.
    [make_qr_error data filename] is the exception they raise for a call
    of [make_qr], if any. *)
Class ImageLibrary : Type := {
  make_qr_error : string → string → option exn
}.

(** A library on a plain directory: names with a directory part and the
    bare extension are refused, every other image is written. *)
Fixpoint has_slash (name : string) : bool :=
  match name with
  | EmptyString => false
  | String a name' => bool_decide (a = Ascii.ascii_of_nat 47) || has_slash name'
  end.

#[global] Instance plain_directory : ImageLibrary := {|
  make_qr_error _ filename :=
    if has_slash filename then Some FileNotFoundError
    else if bool_decide (filename = ".jpg") then Some ValueError
    else None
|}.

(** ** users_dao.py *)

Module UsersDao.

(** [make_qr(data, filename)]: the image saved under [QR_IMG_PATH], or the
    exception of the library. *)
Definition make_qr `{ImageLibrary} (data filename : string) : py unit :=
  match make_qr_error data filename with
  | Some e => raise e
  | None => modify (with_qr_images <[filename := data]>)
  end.

(** [handle_sqlite_error]: prints and raises a plain [Exception]. *)
Definition handle_sqlite_error {A : Type} (error_args : string) : py A :=
  raise (SQLiteException ("SQLite error: " +:+ error_args)).

(** [INSERT OR IGNORE INTO Users VALUES (...)]: a row whose primary key is
    taken is skipped. *)
Definition insert_or_ignore_user (code : string) (u : user_row)
    (t : gmap string user_row) : gmap string user_row :=
  match t !! code with
  | Some _ => t
  | None => <[code := u]> t
  end.

(** The row is committed before [make_qr] runs; what [make_qr] raises is no
    sqlite3.Error and leaves [add_user] uncaught. *)
Definition add_user `{ImageLibrary} (code first_name last_name email : string)
    (status : option string) : py unit :=
  modify (with_Users (insert_or_ignore_user code
            {| firstName := first_name; lastName := last_name;
               email := email; status := status |})) ;;
  make_qr code (first_name +:+ last_name +:+ ".jpg").

(** [INSERT INTO Logins(timestamp, userCode)]: the primary key rejects a
    timestamp that is already there; the foreign key is declared but
    SQLite does not enforce it unless [PRAGMA foreign_keys] is switched on,
    which the source never does. *)
Definition has_timestamp (ts : timestamp) (l : list login_row) : bool :=
  bool_decide (ts ∈ login_timestamp <$> l).

Definition login (ts : timestamp) (userCode : string) : py unit :=
  s ← get ;
  if has_timestamp ts (Logins s)
  then handle_sqlite_error "UNIQUE constraint failed: Logins.timestamp"
  else modify (with_Logins (λ l, (l ++ [ {| login_timestamp := ts;
                                            logoutTime := None;
                                            userCode := userCode |} ])%list)).

(** [UPDATE Logins SET logoutTime = ? WHERE userCode = ? AND logoutTime IS NULL]. *)
Definition is_open (code : string) (r : login_row) : bool :=
  bool_decide (userCode r = code) && bool_decide (logoutTime r = None).

Definition close_row (code : string) (t : timestamp) (r : login_row) : login_row :=
  if is_open code r
  then {| login_timestamp := login_timestamp r; logoutTime := Some t;
          userCode := userCode r |}
  else r.

Definition logout (userCode : string) (logoutTime : timestamp) : py unit :=
  modify (with_Logins (fmap (close_row userCode logoutTime))).

(** [SELECT * FROM Users WHERE code=?] then [fetchone()]: the row as a
    tuple, or [None]. *)
Definition get_info (code : string)
    : py (option (string * string * string * string * option string)) :=
  s ← get ;
  mret ((λ u, (code, firstName u, lastName u, email u, status u)) <$> Users s !! code).

(** [SELECT code FROM Users], [np.array(codes)[:, 0]]: the array of an
    empty result has one axis only and the slice raises. *)
Definition get_whitelist : py (list string) :=
  s ← get ;
  let codes := (map_to_list (Users s)).*1 in
  match codes with
  | [] => raise IndexError
  | _ => mret codes
  end.

(** [user[4]] where [user] may be [None]. *)
Definition subscript4 (user : option (string * string * string * string * option string))
    : py (option string) :=
  match user with
  | None => raise TypeError
  | Some (_, _, _, _, st) => mret st
  end.

Definition with_status (new_status : string) (u : user_row) : user_row :=
  {| firstName := firstName u; lastName := lastName u;
     email := email u; status := Some new_status |}.

(** [UPDATE Users SET status=... WHERE code=?]. *)
Definition update_status (code new_status : string)
    (t : gmap string user_row) : gmap string user_row :=
  alter (with_status new_status) code t.

(** [set_status]: returns ['Active'], ['Inactive'], or falls off the end
    ([None]) after printing "Code Could not be recognized". *)
Definition set_status (code : string) : py (option string) :=
  user ← get_info code ;
  st ← subscript4 user ;
  if bool_decide (st = Some "Inactive") || bool_decide (st = None) then
    modify (with_Users (update_status code "Active")) ;;
    mret (Some "Active")
  else if bool_decide (st = Some "Active") then
    modify (with_Users (update_status code "Inactive")) ;;
    mret (Some "Inactive")
  else
    mret None.

(** [Users.__init__]: both tables exist in every [store], so the two
    CREATE TABLE IF NOT EXISTS statements have nothing to do; then the two
    seeded entries. *)
Definition init `{ImageLibrary} : py unit :=
  add_user "h65ld310" "John" "Buck" "jbuck@gmail.com" None ;;
  add_user "d08ae169" "Jane" "Doe" "jdoe@gmail.com" None.

End UsersDao.

(** ** qr_db_logger.py *)

Module QrLogger.

(** The fields of a [QrLogger] that the scan logic reads: [self.users] is
    the store itself. *)
Record t : Type := mk_logger {
  authorized_users : list string
}.

Definition VALIDATION_MESSAGE_LOGIN : string := "Logged In".
Definition VALIDATION_MESSAGE_LOGOUT : string := "Logged Out".

(** [QrLogger.__init__]. *)
Definition init `{ImageLibrary} : py t :=
  UsersDao.init ;;
  whitelist ← UsersDao.get_whitelist ;
  mret {| authorized_users := whitelist |}.

(** [show_validation]: of its effects (windows, the pause) the image
    handed to [cv2.imwrite] is kept. *)
Definition show_validation (code : string) (now : reading) (message : string) : py unit :=
  modify (with_log_images (λ l, l ++ [ {| snap_message := message;
                                          snap_code := code;
                                          snap_timestamp := str_float now |} ])).

(** [x in arr] for a numpy array of fixed-width unicode strings, which is
    what [get_whitelist] returns: [(arr == x).any()], and numpy compares
    such strings up to trailing NUL characters. *)
Fixpoint rstrip_nul (s : string) : string :=
  match s with
  | EmptyString => EmptyString
  | String a s' =>
      match rstrip_nul s' with
      | EmptyString => if bool_decide (a = Ascii.zero) then EmptyString
                       else String a EmptyString
      | r => String a r
      end
  end.

Definition np_contains (arr : list string) (x : string) : bool :=
  bool_decide (rstrip_nul x ∈ rstrip_nul <$> arr).

Section Scanner.

(** The camera frames and pyzbar's [decode], the external collaborators:
    [decode fr] is the payload of each symbol found, or the exception the
    decoder raised.  A payload is the text [data.decode()] gives, or
    [None] for bytes on which [data.decode()] raises. *)
Context {frame : Type}.
Variable decode : frame → outcome (list (option string)).

(** The list [process_qr] returns: the frame, then the payload and the
    timestamp when the scan was accepted (length 1 or 3). *)
Definition info : Type := frame * option (string * reading).

(** [process_qr]; [now] is what [time.time()] reads at this frame, and the
    second component is [recent_accesses] after the call (the list is
    appended to in place).  When [decode] raises, the handler returns
    [info] before it was ever assigned; when [data.decode()] raises,
    [info] is still [[frame]]. *)
Definition process_qr (self : t) (fr : frame) (now : reading)
    (recent_accesses : list string) : outcome info * list string :=
  match decode fr with
  | Raise _ => (Raise UnboundLocalError, recent_accesses)
  | Ok [] => (Ok (fr, None), recent_accesses)
  | Ok (None :: _) => (Ok (fr, None), recent_accesses)
  | Ok (Some data :: _) =>
      if np_contains (authorized_users self) data then
        if bool_decide (length recent_accesses = 0)
           || bool_decide (last recent_accesses ≠ Some data)
        then (Ok (fr, Some (data, now)), (recent_accesses ++ [data])%list)
        else (Ok (fr, None), recent_accesses)
      else (Ok (fr, None), recent_accesses)
  end.

(** [log_qr_activity]; the float of [info[2]] reaches the ledger as the
    text SQLite stores for it. *)
Definition log_qr_activity (i : info) : py frame :=
  match i with
  | (fr, None) => mret fr
  | (fr, Some (code, now)) =>
      st ← UsersDao.set_status code ;
      (if bool_decide (st = Some "Active") then
         show_validation code now VALIDATION_MESSAGE_LOGIN ;;
         UsersDao.login (sqlite_text now) code
       else
         show_validation code now VALIDATION_MESSAGE_LOGOUT ;;
         UsersDao.logout code (sqlite_text now)) ;;
      mret fr
  end.

(** One turn of the loop of [run]. *)
Definition run_frame (self : t) (fr : frame) (now : reading)
    (recent_accesses : list string) : py (frame * list string) :=
  match process_qr self fr now recent_accesses with
  | (Raise e, _) => raise e
  | (Ok i, recent_accesses') =>
      shown ← log_qr_activity i ;
      mret (shown, recent_accesses')
  end.

(** [run] over the frames the camera delivers before the quit key; the
    first exception ends it. *)
Fixpoint run_frames (self : t) (frames : list (frame * reading))
    (recent_accesses : list string) : py (list string) :=
  match frames with
  | [] => mret recent_accesses
  | (fr, now) :: frames' =>
      r ← run_frame self fr now recent_accesses ;
      run_frames self frames' r.2
  end.

(** *** The whole system

    The database file outlives the process; [recent_accesses] and the
    cached whitelist live for one run. *)
Record system : Type := mk_system {
  disk : store;
  session : option (t * list string)
}.

Inductive event : Type :=
| EvAddUser (code first_name last_name email : string) (status : option string)
| EvStart                                  (* [main()]: [QrLogger()] then [run()] *)
| EvFrame (fr : frame) (now : reading)     (* one turn of the loop *)
| EvQuit.

Context {lib : ImageLibrary}.

Definition sys_step (sys : system) (ev : event) : system :=
  match ev with
  | EvAddUser code first_name last_name email status =>
      {| disk := (UsersDao.add_user code first_name last_name email status (disk sys)).2;
         session := session sys |}
  | EvStart =>
      match init (disk sys) with
      | (Ok self, d) => {| disk := d; session := Some (self, []) |}
      | (Raise _, d) => {| disk := d; session := None |}
      end
  | EvFrame fr now =>
      match session sys with
      | None => sys
      | Some (self, recent_accesses) =>
          match run_frame self fr now recent_accesses (disk sys) with
          | (Ok (_, recent_accesses'), d) =>
              {| disk := d; session := Some (self, recent_accesses') |}
          | (Raise _, d) => {| disk := d; session := None |}
          end
      end
  | EvQuit => {| disk := disk sys; session := None |}
  end.

Definition sys_init : system := {| disk := empty_store; session := None |}.

Definition sys_run (evs : list event) : system := foldl sys_step sys_init evs.

End Scanner.

End QrLogger.

(** ** Derived notions used by the statements *)

(** The status column of a code: [None] when the code has no row,
    [Some None] when the row holds NULL. *)
Definition status_of (s : store) (code : string) : option (option string) :=
  status <$> Users s !! code.

(** Ledger entries of a code whose [logoutTime] is NULL. *)
Definition open_sessions (code : string) (l : list login_row) : list login_row :=
  filter (λ r, UsersDao.is_open code r) l.

Definition open_count (s : store) (code : string) : nat :=
  length (open_sessions code (Logins s)).

(** The three values the specification allows in the status column. *)
Definition tri_state (st : option string) : Prop :=
  st = None ∨ st = Some "Active" ∨ st = Some "Inactive".

(** The image [show_validation] writes. *)
Definition snapshot_of (message code : string) (now : reading) : snapshot :=
  {| snap_message := message; snap_code := code; snap_timestamp := str_float now |}.

(** What an accepted scan of a user who is not Active leaves behind when
    the ledger takes the row. *)
Definition after_login (code : string) (now : reading) (s : store) : store :=
  with_Logins (λ l, (l ++ [mk_login (sqlite_text now) None code])%list)
    (with_log_images
       (λ l, l ++ [snapshot_of QrLogger.VALIDATION_MESSAGE_LOGIN code now])
       (with_Users (UsersDao.update_status code "Active") s)).

(** The same when the ledger rejects the row: the status and the image are
    already written. *)
Definition after_failed_login (code : string) (now : reading) (s : store) : store :=
  with_log_images
    (λ l, l ++ [snapshot_of QrLogger.VALIDATION_MESSAGE_LOGIN code now])
    (with_Users (UsersDao.update_status code "Active") s).

(** What an accepted scan of an Active user leaves behind. *)
Definition after_logout (code : string) (now : reading) (s : store) : store :=
  with_Logins (fmap (UsersDao.close_row code (sqlite_text now)))
    (with_log_images
       (λ l, l ++ [snapshot_of QrLogger.VALIDATION_MESSAGE_LOGOUT code now])
       (with_Users (UsersDao.update_status code "Inactive") s)).

(** The same for a status that [set_status] does not recognize: no status
    is written, the logout branch still runs. *)
Definition after_unrecognized (code : string) (now : reading) (s : store) : store :=
  with_Logins (fmap (UsersDao.close_row code (sqlite_text now)))
    (with_log_images
       (λ l, l ++ [snapshot_of QrLogger.VALIDATION_MESSAGE_LOGOUT code now]) s).

(** The scan deduplicator alone over a stretch of frames: what
    [process_qr] returns at each turn of the loop of [run], with
    [recent_accesses] threaded through. *)
Fixpoint process_frames {frame : Type} (decode : frame → outcome (list (option string)))
    (self : QrLogger.t) (frames : list (frame * reading))
    (recent_accesses : list string) : list (outcome (QrLogger.info (frame := frame))) :=
  match frames with
  | [] => []
  | (fr, now) :: frames' =>
      let r := QrLogger.process_qr decode self fr now recent_accesses in
      r.1 :: process_frames decode self frames' r.2
  end.

(** A scan event: [process_qr] returned the code and the timestamp. *)
Definition accepted {frame : Type} (r : outcome (QrLogger.info (frame := frame))) : bool :=
  match r with
  | Ok (_, Some _) => true
  | _ => false
  end.

Definition accepted_events {frame : Type} (rs : list (outcome (QrLogger.info (frame := frame)))) : nat :=
  length (List.filter accepted rs).

(** Calls a client of the two classes can make on a store, one after the
    other. *)
Inductive call {frame : Type} : Type :=
| CallAddUser (code first_name last_name email : string) (status : option string)
| CallLogin (ts : timestamp) (userCode : string)
| CallLogout (userCode : string) (logoutTime : timestamp)
| CallSetStatus (code : string)
| CallLogQrActivity (i : QrLogger.info (frame := frame)).
Arguments call : clear implicits.

Definition exec `{ImageLibrary} {frame : Type} (s : store) (c : call frame) : store :=
  match c with
  | CallAddUser code f l e st => (UsersDao.add_user code f l e st s).2
  | CallLogin ts code => (UsersDao.login ts code s).2
  | CallLogout code t => (UsersDao.logout code t s).2
  | CallSetStatus code => (UsersDao.set_status code s).2
  | CallLogQrActivity i => (QrLogger.log_qr_activity i s).2
  end.

(** The invariant of the runs of the system: a code has at most one open
    ledger entry, and none unless its status is Active. *)
Definition consistent (s : store) : Prop :=
  ∀ code, open_count s code ≤ 1
          ∧ (status_of s code ≠ Some (Some "Active") → open_count s code = 0).

(** Every status column holds one of the three values. *)
Definition statuses_ok (s : store) : Prop :=
  ∀ code u, Users s !! code = Some u → tri_state (status u).

(** Readings of the clock at whole seconds, where the text SQLite stores
    and the text [str] prints are the same. *)
Definition whole_second (digits : string) : reading :=
  {| sqlite_text := digits +:+ ".0"; str_float := digits +:+ ".0" |}.

Definition clock_1 : reading := whole_second "1689700001".
Definition clock_2 : reading := whole_second "1689700002".
Definition clock_3 : reading := whole_second "1689700003".
Definition clock_4 : reading := whole_second "1689700004".
Definition clock_5 : reading := whole_second "1689700005".


(** A whitelisted code followed by one NUL character. *)
Definition nul_padded : string := "h65ld310" +:+ String Ascii.zero EmptyString.

(** The decoder of frames that are given as the payloads they show. *)
Definition shown : list (option string) → outcome (list (option string)) := Ok.

(** The store after the program started and Jane Doe's code was scanned at
    [clock_1]. *)
Definition jane_logged_in : store :=
  (QrLogger.log_qr_activity ((), Some ("d08ae169", clock_1)) (UsersDao.init empty_store).2).2.

(** What [process_qr] returns for a frame it does not accept. *)
Definition not_accepted {frame : Type} (f : frame * reading)
    : outcome (QrLogger.info (frame := frame)) :=
  Ok (f.1, None).

(** The logger as its constructor leaves it on an empty database. *)
Definition seeded_logger : QrLogger.t :=
  match (QrLogger.init empty_store).1 with
  | Ok self => self
  | Raise _ => {| QrLogger.authorized_users := [] |}
  end.

(** The cached whitelist of a running session names only codes that have a
    row. *)
Definition whitelist_sound (sys : QrLogger.system) : Prop :=
  ∀ self recent_accesses, QrLogger.session sys = Some (self, recent_accesses) →
    ∀ code, code ∈ QrLogger.authorized_users self →
      is_Some (Users (QrLogger.disk sys) !! code).

(** ** Derived notions used by the further properties *)

(** [recent_accesses] after the loop of [run] has passed a stretch of
    frames through [process_qr]. *)
Fixpoint recent_after {frame : Type} (decode : frame → outcome (list (option string)))
    (self : QrLogger.t) (frames : list (frame * reading))
    (recent_accesses : list string) : list string :=
  match frames with
  | [] => recent_accesses
  | (fr, now) :: frames' =>
      recent_after decode self frames'
        (QrLogger.process_qr decode self fr now recent_accesses).2
  end.

(** No code occurs twice in a row. *)
Definition adjacent_distinct (l : list string) : Prop :=
  ∀ l1 x l2, l ≠ l1 ++ x :: x :: l2.

(** The columns of a ledger row that identify it: its primary key and the
    user it belongs to. *)
Definition row_key (r : login_row) : timestamp * string :=
  (login_timestamp r, userCode r).

(** The ledger rows of one user. *)
Definition rows_of (code : string) (l : list login_row) : list login_row :=
  filter (λ r, userCode r = code) l.

(** The store after a run of accepted scans of one code, one per clock
    reading. *)
Definition scans {frame : Type} (fr : frame) (code : string) (nows : list reading)
    (s : store) : store :=
  foldl (λ s now, (QrLogger.log_qr_activity (fr, Some (code, now)) s).2) s nows.

(** * Properties *)

(** ** The scenarios of the test suite and of the specification *)

(** test_add_user: a seeded user read back. *)
Example seeded_user_read_back :
  (UsersDao.get_info "h65ld310" (UsersDao.init empty_store).2).1
  = Ok (Some ("h65ld310", "John", "Buck", "jbuck@gmail.com", None)).
Proof. vm_compute. reflexivity. Qed.

(** test_set_status: unset, then Active, then Inactive. *)
Example set_status_twice :
  let s0 := (UsersDao.init empty_store).2 in
  let s1 := (UsersDao.set_status "h65ld310" s0).2 in
  let s2 := (UsersDao.set_status "h65ld310" s1).2 in
  (status_of s0 "h65ld310", status_of s1 "h65ld310", status_of s2 "h65ld310")
  = (Some None, Some (Some "Active"), Some (Some "Inactive")).
Proof. vm_compute. reflexivity. Qed.

(** John Buck scans, Jane Doe scans, John Buck scans again: his entry is
    closed by his second scan and no entry is added for it. *)
Example scan_scenario :
  let d := QrLogger.disk (QrLogger.sys_run shown
             [QrLogger.EvStart; QrLogger.EvFrame [Some "h65ld310"] clock_1;
              QrLogger.EvFrame [Some "d08ae169"] clock_2;
              QrLogger.EvFrame [Some "h65ld310"] clock_3]) in
  (status_of d "h65ld310", Logins d)
  = (Some (Some "Inactive"),
     [mk_login "1689700001.0" (Some "1689700003.0") "h65ld310";
      mk_login "1689700002.0" None "d08ae169"]).
Proof. vm_compute. reflexivity. Qed.

(** test_process_qr_with_unknown_qr: only the frame comes back. *)
Example unknown_qr_frame_only :
  QrLogger.process_qr shown seeded_logger [Some "unknownQR"] clock_1 []
  = (Ok ([Some "unknownQR"], None), []).
Proof. vm_compute. reflexivity. Qed.

(** A symbol whose bytes do not decode: [data.decode()] raises inside the
    [try], the handler returns the frame alone. *)
Example undecodable_symbol_frame_only :
  QrLogger.process_qr shown seeded_logger [None; Some "h65ld310"] clock_1 []
  = (Ok ([None; Some "h65ld310"], None), []).
Proof. vm_compute. reflexivity. Qed.

(** A name with a directory part: the row is committed, [make_qr] raises
    and no image is written. *)
Example add_user_image_refused :
  let r := UsersDao.add_user "a1b2c3d4" "Ann" "Lee/Roy" "alee@gmail.com" None empty_store in
  (r.1, status_of r.2 "a1b2c3d4", qr_images r.2)
  = (Raise FileNotFoundError, Some None, ∅).
Proof. vm_compute. reflexivity. Qed.

(** ** Equations of the data-access methods *)

Section UsersDaoFacts.
Import UsersDao.
Context {lib : ImageLibrary}.

Lemma add_user_eq code f l e st s :
  add_user code f l e st s =
  match make_qr_error code (f +:+ l +:+ ".jpg") with
  | Some err => (Raise err, with_Users (insert_or_ignore_user code (mk_user f l e st)) s)
  | None =>
      (Ok (), with_qr_images <[f +:+ l +:+ ".jpg" := code]>
                (with_Users (insert_or_ignore_user code (mk_user f l e st)) s))
  end.
Proof.
  unfold add_user, make_qr, mbind, py_bind, modify.
  destruct (make_qr_error code (f +:+ l +:+ ".jpg")); reflexivity.
Qed.

Lemma Users_add_user code f l e st s :
  Users (add_user code f l e st s).2
  = insert_or_ignore_user code (mk_user f l e st) (Users s).
Proof. rewrite add_user_eq. by destruct (make_qr_error _ _). Qed.

Lemma Logins_add_user code f l e st s :
  Logins (add_user code f l e st s).2 = Logins s.
Proof. rewrite add_user_eq. by destruct (make_qr_error _ _). Qed.

Lemma log_images_add_user code f l e st s :
  log_images (add_user code f l e st s).2 = log_images s.
Proof. rewrite add_user_eq. by destruct (make_qr_error _ _). Qed.

(** [Users.__init__] stops at the first image that is refused. *)
Lemma UsersDao_init_cases s :
  let s1 := (add_user "h65ld310" "John" "Buck" "jbuck@gmail.com" None s).2 in
  (init s).2 = s1
  ∨ (init s).2 = (add_user "d08ae169" "Jane" "Doe" "jdoe@gmail.com" None s1).2.
Proof.
  cbv zeta. unfold init, mbind, py_bind.
  destruct (add_user "h65ld310" "John" "Buck" "jbuck@gmail.com" None s) as [[[]|err] s1];
    [by right|by left].
Qed.

Lemma login_fresh ts code s :
  has_timestamp ts (Logins s) = false →
  login ts code s = (Ok (), with_Logins (λ l, (l ++ [mk_login ts None code])%list) s).
Proof. intros H. unfold login, mbind, py_bind, get. rewrite H. reflexivity. Qed.

Lemma login_duplicate ts code s :
  has_timestamp ts (Logins s) = true →
  login ts code s
  = (Raise (SQLiteException "SQLite error: UNIQUE constraint failed: Logins.timestamp"), s).
Proof. intros H. unfold login, mbind, py_bind, get. rewrite H. reflexivity. Qed.

Lemma logout_eq code t s :
  logout code t s = (Ok (), with_Logins (fmap (close_row code t)) s).
Proof. reflexivity. Qed.

Lemma get_info_eq code s :
  get_info code s
  = (Ok ((λ u, (code, firstName u, lastName u, email u, status u)) <$> Users s !! code), s).
Proof. reflexivity. Qed.

Lemma set_status_absent code s :
  Users s !! code = None → set_status code s = (Raise TypeError, s).
Proof.
  intros H. unfold set_status, mbind, py_bind. rewrite get_info_eq, H. reflexivity.
Qed.

Lemma set_status_to_active code u s :
  Users s !! code = Some u →
  status u = None ∨ status u = Some "Inactive" →
  set_status code s = (Ok (Some "Active"), with_Users (update_status code "Active") s).
Proof.
  intros H Hst. unfold set_status, mbind, py_bind. rewrite get_info_eq, H. simpl.
  destruct Hst as [-> | ->]; reflexivity.
Qed.

Lemma set_status_to_inactive code u s :
  Users s !! code = Some u →
  status u = Some "Active" →
  set_status code s = (Ok (Some "Inactive"), with_Users (update_status code "Inactive") s).
Proof.
  intros H Hst. unfold set_status, mbind, py_bind. rewrite get_info_eq, H. simpl.
  rewrite Hst. reflexivity.
Qed.

Lemma set_status_unrecognized code u s :
  Users s !! code = Some u →
  ¬ tri_state (status u) →
  set_status code s = (Ok None, s).
Proof.
  intros H Hst. unfold set_status, mbind, py_bind. rewrite get_info_eq, H. simpl.
  unfold tri_state in Hst.
  repeat case_bool_decide; simpl; try reflexivity; exfalso; apply Hst; auto.
Qed.

End UsersDaoFacts.

(** ** Equations of the state machine *)

Section LogQrActivityFacts.
Import UsersDao QrLogger.
Context {frame : Type}.
Implicit Types (fr : frame) (s : store) (code : string) (now : reading).

Lemma log_qr_activity_none fr s :
  log_qr_activity (fr, None) s = (Ok fr, s).
Proof. reflexivity. Qed.

Lemma log_qr_activity_absent fr code now s :
  Users s !! code = None →
  log_qr_activity (fr, Some (code, now)) s = (Raise TypeError, s).
Proof.
  intros H. unfold log_qr_activity, mbind, py_bind.
  rewrite (set_status_absent _ _ H). reflexivity.
Qed.

Lemma log_qr_activity_login fr code now u s :
  Users s !! code = Some u →
  status u = None ∨ status u = Some "Inactive" →
  has_timestamp (sqlite_text now) (Logins s) = false →
  log_qr_activity (fr, Some (code, now)) s = (Ok fr, after_login code now s).
Proof.
  intros H Hst Hts. unfold log_qr_activity, mbind, py_bind.
  rewrite (set_status_to_active _ _ _ H Hst). simpl.
  rewrite login_fresh by exact Hts. reflexivity.
Qed.

Lemma log_qr_activity_login_rejected fr code now u s :
  Users s !! code = Some u →
  status u = None ∨ status u = Some "Inactive" →
  has_timestamp (sqlite_text now) (Logins s) = true →
  log_qr_activity (fr, Some (code, now)) s
  = (Raise (SQLiteException "SQLite error: UNIQUE constraint failed: Logins.timestamp"),
     after_failed_login code now s).
Proof.
  intros H Hst Hts. unfold log_qr_activity, mbind, py_bind.
  rewrite (set_status_to_active _ _ _ H Hst). simpl.
  rewrite login_duplicate by exact Hts. reflexivity.
Qed.

Lemma log_qr_activity_logout fr code now u s :
  Users s !! code = Some u →
  status u = Some "Active" →
  log_qr_activity (fr, Some (code, now)) s = (Ok fr, after_logout code now s).
Proof.
  intros H Hst. unfold log_qr_activity, mbind, py_bind.
  rewrite (set_status_to_inactive _ _ _ H Hst). reflexivity.
Qed.

Lemma log_qr_activity_unrecognized fr code now u s :
  Users s !! code = Some u →
  ¬ tri_state (status u) →
  log_qr_activity (fr, Some (code, now)) s = (Ok fr, after_unrecognized code now s).
Proof.
  intros H Hst. unfold log_qr_activity, mbind, py_bind.
  rewrite (set_status_unrecognized _ _ _ H Hst). reflexivity.
Qed.

Lemma update_status_lookup code st u (t : gmap string user_row) :
  t !! code = Some u → update_status code st t !! code = Some (with_status st u).
Proof. intros H. unfold update_status. rewrite lookup_alter_eq, H. reflexivity. Qed.

Lemma update_status_lookup_ne code code' st (t : gmap string user_row) :
  code ≠ code' → update_status code st t !! code' = t !! code'.
Proof. intros H. unfold update_status. by rewrite lookup_alter_ne. Qed.

Lemma lookup_update_status code st u s :
  Users s !! code = Some u →
  Users (with_Users (update_status code st) s) !! code = Some (with_status st u).
Proof.
  intros H. unfold update_status. simpl. rewrite lookup_alter_eq, H. reflexivity.
Qed.

End LogQrActivityFacts.

(** ** Open ledger entries *)

Section OpenSessions.
Import UsersDao QrLogger.
Implicit Types (s : store) (code : string) (ts : timestamp) (l : list login_row).

Lemma is_open_close_row code ts r : is_open code (close_row code ts r) = false.
Proof.
  unfold close_row. destruct (is_open code r) eqn:E; [|exact E].
  unfold is_open. simpl. rewrite andb_false_r. reflexivity.
Qed.

Lemma is_open_close_row_ne code code' ts r :
  code ≠ code' → is_open code' (close_row code ts r) = is_open code' r.
Proof.
  intros Hne. unfold close_row. destruct (is_open code r) eqn:E; [|reflexivity].
  unfold is_open in *. simpl. apply andb_true_iff in E as [E _].
  apply bool_decide_eq_true_1 in E.
  rewrite !bool_decide_eq_false_2 by congruence. reflexivity.
Qed.

Lemma is_open_other_code code code' ts o :
  code ≠ code' → is_open code' (mk_login ts o code) = false.
Proof.
  intros Hne. unfold is_open. simpl.
  rewrite bool_decide_eq_false_2 by congruence. reflexivity.
Qed.

Lemma open_sessions_cons code r l :
  open_sessions code (r :: l)
  = if is_open code r then r :: open_sessions code l else open_sessions code l.
Proof.
  unfold open_sessions. rewrite filter_cons.
  destruct (is_open code r); simpl; reflexivity.
Qed.

Lemma open_sessions_app code l1 l2 :
  open_sessions code (l1 ++ l2) = open_sessions code l1 ++ open_sessions code l2.
Proof. apply filter_app. Qed.

Lemma open_sessions_closed code ts l :
  open_sessions code (close_row code ts <$> l) = [].
Proof.
  induction l as [|r l IH]; [reflexivity|].
  rewrite fmap_cons, open_sessions_cons, is_open_close_row. exact IH.
Qed.

Lemma open_sessions_closed_ne code code' ts l :
  code ≠ code' →
  length (open_sessions code' (close_row code ts <$> l)) = length (open_sessions code' l).
Proof.
  intros Hne. induction l as [|r l IH]; [reflexivity|].
  rewrite fmap_cons, !open_sessions_cons, is_open_close_row_ne by exact Hne.
  destruct (is_open code' r); simpl; congruence.
Qed.

Lemma close_row_not_open code ts r :
  is_open code r = false → close_row code ts r = r.
Proof. intros H. unfold close_row. rewrite H. reflexivity. Qed.

Lemma close_rows_none_open code ts l :
  open_sessions code l = [] → close_row code ts <$> l = l.
Proof.
  induction l as [|r l IH]; [reflexivity|].
  rewrite open_sessions_cons. destruct (is_open code r) eqn:E; [discriminate|].
  intros H. rewrite fmap_cons, close_row_not_open, IH by assumption. reflexivity.
Qed.

Lemma status_cases (u : user_row) :
  (status u = None ∨ status u = Some "Inactive")
  ∨ status u = Some "Active"
  ∨ ¬ tri_state (status u).
Proof.
  destruct (status u) as [x|]; [|left; left; reflexivity].
  destruct (decide (x = "Inactive")) as [->|Hi]; [left; right; reflexivity|].
  destruct (decide (x = "Active")) as [->|Ha]; [right; left; reflexivity|].
  right. right. intros [H|[H|H]]; congruence.
Qed.

(** The stores an accepted scan can leave. *)
Lemma log_qr_activity_store {frame : Type} (fr : frame) code (now : reading) s :
  let s' := (log_qr_activity (fr, Some (code, now)) s).2 in
  s' = s ∧ Users s !! code = None
  ∨ (∃ u, Users s !! code = Some u ∧ status u ≠ Some "Active"
          ∧ (s' = after_login code now s ∨ s' = after_failed_login code now s))
  ∨ s' = after_logout code now s
  ∨ (∃ u, Users s !! code = Some u ∧ status u ≠ Some "Active"
          ∧ s' = after_unrecognized code now s).
Proof.
  cbv zeta. destruct (Users s !! code) as [u|] eqn:Hu.
  - right. destruct (status_cases u) as [Hst|[Hst|Hst]].
    + left. exists u. split; [reflexivity|]. split; [destruct Hst; congruence|].
      destruct (has_timestamp (sqlite_text now) (Logins s)) eqn:Hts.
      * right. by rewrite (log_qr_activity_login_rejected fr code now u s Hu Hst Hts).
      * left. by rewrite (log_qr_activity_login fr code now u s Hu Hst Hts).
    + right. left. by rewrite (log_qr_activity_logout fr code now u s Hu Hst).
    + right. right. exists u. split; [reflexivity|].
      split; [intros H; apply Hst; right; left; exact H|].
      by rewrite (log_qr_activity_unrecognized fr code now u s Hu Hst).
  - left. by rewrite (log_qr_activity_absent fr code now s Hu).
Qed.

End OpenSessions.

(** ** The presence state machine *)

Section PresenceStateMachine.
Import UsersDao QrLogger.
Context {frame : Type}.
Implicit Types (fr : frame) (s : store) (code : string) (ts : timestamp)
  (now : reading).



End PresenceStateMachine.



(** ** The ledger invariant along the runs of the system *)

Section LedgerInvariant.
Import UsersDao QrLogger.
Context {lib : ImageLibrary}.
Implicit Types (s : store) (code : string) (now : reading).

Lemma consistent_empty : consistent empty_store.
Proof. intros code. split; [apply Nat.le_0_l | reflexivity]. Qed.

Lemma consistent_add_user code f l e st s :
  consistent s → consistent (add_user code f l e st s).2.
Proof.
  intros H code'. destruct (H code') as [H1 H2].
  unfold open_count, status_of. rewrite Logins_add_user, Users_add_user.
  split; [exact H1|]. intros Hst. apply H2.
  unfold status_of in *. unfold insert_or_ignore_user in Hst.
  destruct (Users s !! code) eqn:E; [exact Hst|].
  destruct (decide (code = code')) as [<-|Hne].
  - rewrite E. discriminate.
  - by rewrite lookup_insert_ne in Hst.
Qed.

Lemma consistent_after_login code now u s :
  Users s !! code = Some u → status u ≠ Some "Active" →
  consistent s → consistent (after_login code now s).
Proof.
  intros Hu Hst H code'. destruct (H code') as [H1 H2].
  unfold open_count, status_of in *. simpl.
  rewrite open_sessions_app, length_app.
  destruct (decide (code = code')) as [<-|Hne].
  - rewrite (update_status_lookup code "Active" u _ Hu).
    rewrite H2 by (rewrite Hu; simpl; congruence).
    split; [|intros Hf; exfalso; apply Hf; reflexivity].
    rewrite open_sessions_cons. destruct (is_open code _); simpl; lia.
  - rewrite (update_status_lookup_ne code code' "Active" _ Hne).
    rewrite open_sessions_cons, is_open_other_code by exact Hne. simpl.
    rewrite Nat.add_0_r. split; assumption.
Qed.

Lemma consistent_after_failed_login code now u s :
  Users s !! code = Some u → status u ≠ Some "Active" →
  consistent s → consistent (after_failed_login code now s).
Proof.
  intros Hu Hst H code'. destruct (H code') as [H1 H2].
  unfold open_count, status_of in *. simpl.
  destruct (decide (code = code')) as [<-|Hne].
  - rewrite (update_status_lookup code "Active" u _ Hu).
    split; [exact H1|intros Hf; exfalso; apply Hf; reflexivity].
  - rewrite (update_status_lookup_ne code code' "Active" _ Hne). split; assumption.
Qed.

Lemma consistent_after_logout code now s :
  consistent s → consistent (after_logout code now s).
Proof.
  intros H code'. destruct (H code') as [H1 H2].
  unfold open_count, status_of in *. simpl.
  destruct (decide (code = code')) as [<-|Hne].
  - rewrite open_sessions_closed. simpl. split; [lia|reflexivity].
  - rewrite (open_sessions_closed_ne code code' (sqlite_text now) _ Hne).
    rewrite (update_status_lookup_ne code code' "Inactive" _ Hne). split; assumption.
Qed.

Lemma consistent_after_unrecognized code now s :
  consistent s → consistent (after_unrecognized code now s).
Proof.
  intros H code'. destruct (H code') as [H1 H2].
  unfold open_count, status_of in *. simpl.
  destruct (decide (code = code')) as [<-|Hne].
  - rewrite open_sessions_closed. simpl. split; [lia|reflexivity].
  - rewrite (open_sessions_closed_ne code code' (sqlite_text now) _ Hne). split; assumption.
Qed.

Lemma consistent_log_qr_activity {frame : Type} (i : info (frame := frame)) s :
  consistent s → consistent (log_qr_activity i s).2.
Proof.
  intros H. destruct i as [fr [[code now]|]]; [|exact H].
  destruct (log_qr_activity_store fr code now s)
    as [[-> _]|[(u & Hu & Hst & [-> | ->])|[->|(u & Hu & Hst & ->)]]].
  - exact H.
  - by apply (consistent_after_login code now u).
  - by apply (consistent_after_failed_login code now u).
  - by apply consistent_after_logout.
  - by apply consistent_after_unrecognized.
Qed.

Lemma init_store s : (init s).2 = (UsersDao.init s).2.
Proof.
  unfold init, mbind, py_bind. destruct (UsersDao.init s) as [[[]|e] s1] eqn:E; [|reflexivity].
  unfold get_whitelist, get, mbind, py_bind.
  destruct ((map_to_list (Users s1)).*1); reflexivity.
Qed.

Lemma consistent_init s : consistent s → consistent (init s).2.
Proof.
  intros H. rewrite init_store.
  destruct (UsersDao_init_cases s) as [-> | ->]; by repeat apply consistent_add_user.
Qed.

Section WithDecoder.
Context {frame : Type} (decode : frame → outcome (list (option string))).

Lemma run_frame_store self (fr : frame) now recent s :
  (run_frame decode self fr now recent s).2 = s
  ∨ ∃ i : info (frame := frame),
      (run_frame decode self fr now recent s).2 = (log_qr_activity i s).2.
Proof.
  unfold run_frame. destruct (process_qr decode self fr now recent) as [[i|e] recent'].
  - right. exists i. unfold mbind, py_bind.
    destruct (log_qr_activity i s) as [[shown|e] s']; reflexivity.
  - left. reflexivity.
Qed.

Lemma consistent_sys_step (sys : system) (ev : event (frame := frame)) :
  consistent (disk sys) → consistent (disk (sys_step decode sys ev)).
Proof.
  intros H. destruct ev as [code f l e st| |fr now|]; simpl.
  - by apply consistent_add_user.
  - pose proof (consistent_init _ H) as Hi.
    destruct (init (disk sys)) as [[self|e] d]; exact Hi.
  - destruct (session sys) as [[self recent]|]; [|exact H].
    destruct (run_frame_store self fr now recent (disk sys)) as [E|[i E]];
      destruct (run_frame decode self fr now recent (disk sys)) as [[[shown recent']|e] d];
      simpl in *; subst d; try exact H; by apply consistent_log_qr_activity.
  - exact H.
Qed.

Lemma consistent_foldl_sys_step (evs : list (event (frame := frame))) (sys : system) :
  consistent (disk sys) → consistent (disk (foldl (sys_step decode) sys evs)).
Proof.
  revert sys. induction evs as [|ev evs IH]; intros sys H; [exact H|].
  simpl. apply IH. by apply consistent_sys_step.
Qed.

(** C2 (as amended).  In every state the system reaches from the empty
    store (users added, the program started and quit, frames processed)
    each code has at most one ledger entry without a logout time, and none
    unless its status is Active. *)
Theorem reachable_at_most_one_open (evs : list (event (frame := frame))) (code : string) :
  let s := disk (sys_run decode evs) in
  open_count s code ≤ 1
  ∧ (status_of s code ≠ Some (Some "Active") → open_count s code = 0).
Proof.
  apply (consistent_foldl_sys_step evs sys_init). exact consistent_empty.
Qed.

End WithDecoder.

End LedgerInvariant.

(** C2 (as stated) fails for the ledger operation taken alone: [login]
    appends an open entry whether or not the code already has one. *)
Lemma login_twice_two_open :
  let s1 := (UsersDao.login "t1" "h65ld310" (UsersDao.init empty_store).2).2 in
  let r := UsersDao.login "t2" "h65ld310" s1 in
  (∀ code, open_count s1 code ≤ 1) ∧ r.1 = Ok () ∧ open_count r.2 "h65ld310" = 2.
Proof.
  split; [|split; vm_compute; reflexivity].
  intros code. unfold open_count. simpl. rewrite open_sessions_cons.
  destruct (UsersDao.is_open code _); simpl; lia.
Qed.

(** ** The two writes of an accepted scan *)

Section TwoWrites.
Import UsersDao QrLogger.
Context {frame : Type}.
Implicit Types (fr : frame) (s : store) (code : string) (now : reading).

(** C3 (as amended).  For an accepted scan of a code whose row holds
    unset, Active or Inactive, the status is written and committed first,
    the ledger after it.  The call returns with both written (a logout, or
    a login whose timestamp is new), or, when the timestamp of a login (the
    text SQLite stores for the clock reading) is already a key of Logins,
    it raises the SQLite exception with the
    status already Active and the ledger as it was. *)
Theorem status_committed_before_ledger fr s code u now :
  Users s !! code = Some u →
  tri_state (status u) →
  let r := log_qr_activity (fr, Some (code, now)) s in
  (status u = Some "Active" →
     r.1 = Ok fr
     ∧ Users r.2 !! code = Some (with_status "Inactive" u)
     ∧ Logins r.2 = close_row code (sqlite_text now) <$> Logins s)
  ∧ (status u ≠ Some "Active" → has_timestamp (sqlite_text now) (Logins s) = false →
     r.1 = Ok fr
     ∧ Users r.2 !! code = Some (with_status "Active" u)
     ∧ Logins r.2 = Logins s ++ [mk_login (sqlite_text now) None code])
  ∧ (status u ≠ Some "Active" → has_timestamp (sqlite_text now) (Logins s) = true →
     r.1 = Raise (SQLiteException "SQLite error: UNIQUE constraint failed: Logins.timestamp")
     ∧ Users r.2 !! code = Some (with_status "Active" u)
     ∧ Logins r.2 = Logins s).
Proof.
  intros Hu Htri r. subst r.
  assert (Hna : status u ≠ Some "Active" → status u = None ∨ status u = Some "Inactive")
    by (destruct Htri as [H|[H|H]]; intros Hn; [left|contradiction|right]; exact H).
  split; [|split].
  - intros Hst. rewrite (log_qr_activity_logout fr code now u s Hu Hst).
    split; [reflexivity|]. split; [|reflexivity].
    exact (lookup_update_status code "Inactive" u s Hu).
  - intros Hst Hts. rewrite (log_qr_activity_login fr code now u s Hu (Hna Hst) Hts).
    split; [reflexivity|]. split; [|reflexivity].
    exact (lookup_update_status code "Active" u s Hu).
  - intros Hst Hts.
    rewrite (log_qr_activity_login_rejected fr code now u s Hu (Hna Hst) Hts).
    split; [reflexivity|]. split; [|reflexivity].
    exact (lookup_update_status code "Active" u s Hu).
Qed.

End TwoWrites.

Lemma status_committed_before_ledger_witness :
  let r := QrLogger.log_qr_activity ((), Some ("h65ld310", clock_1)) jane_logged_in in
  r.1 = Raise (SQLiteException "SQLite error: UNIQUE constraint failed: Logins.timestamp")
  ∧ Users r.2 !! "h65ld310"
    = Some (UsersDao.with_status "Active" (mk_user "John" "Buck" "jbuck@gmail.com" None))
  ∧ Logins r.2 = Logins jane_logged_in.
Proof.
  apply (status_committed_before_ledger () jane_logged_in "h65ld310"
           (mk_user "John" "Buck" "jbuck@gmail.com" None) clock_1).
  - vm_compute. reflexivity.
  - left. reflexivity.
  - simpl. discriminate.
  - vm_compute. reflexivity.
Defined.

(** C3 (as stated) fails: the ledger rejects John Buck's login because the
    timestamp is taken; the call raises, yet his status has changed from
    unset to Active and he has no ledger entry. *)
Lemma failed_login_keeps_status :
  let r := QrLogger.log_qr_activity ((), Some ("h65ld310", clock_1)) jane_logged_in in
  r.1 = Raise (SQLiteException "SQLite error: UNIQUE constraint failed: Logins.timestamp")
  ∧ status_of jane_logged_in "h65ld310" = Some None
  ∧ status_of r.2 "h65ld310" = Some (Some "Active")
  ∧ Logins r.2 = Logins jane_logged_in
  ∧ open_count r.2 "h65ld310" = 0.
Proof. vm_compute. repeat split; reflexivity. Qed.

(** ** The ledger and directory operations on their own *)

Section Directory.
Import UsersDao.
Implicit Types (s : store) (code : string) (ts : timestamp).

(** C6 (as amended).  [logout] always returns; it writes the logout time
    into every entry of the code that has none (so the code has no open
    entry afterwards) and touches nothing else; when the code has no open
    entry the store is left as it was, and no error is raised. *)
Theorem logout_closes_open_entries s code ts :
  let r := logout code ts s in
  r.1 = Ok ()
  ∧ Logins r.2 = close_row code ts <$> Logins s
  ∧ Users r.2 = Users s
  ∧ open_count r.2 code = 0
  ∧ (open_sessions code (Logins s) = [] → r.2 = s).
Proof.
  cbv zeta. rewrite logout_eq. simpl.
  split; [reflexivity|]. split; [reflexivity|]. split; [reflexivity|]. split.
  - unfold open_count. simpl. rewrite open_sessions_closed. reflexivity.
  - intros H. unfold with_Logins. rewrite (close_rows_none_open code ts _ H).
    destruct s; reflexivity.
Qed.

(** C9, at the failing input: [set_status] on a code without a row raises
    the TypeError of [user[4]], which [except sqlite3.Error] does not
    catch, and writes nothing. *)
Theorem set_status_unknown_code_type_error :
  set_status "unknownQR" (init empty_store).2 = (Raise TypeError, (init empty_store).2).
Proof. apply set_status_absent. vm_compute. reflexivity. Qed.

(** For a code with a row whose status is unset, Active or Inactive,
    [set_status] overwrites the status with the other state. *)
Lemma set_status_present code u s :
  Users s !! code = Some u → tri_state (status u) →
  ∃ new, (set_status code s).1 = Ok (Some new)
         ∧ Users (set_status code s).2 !! code = Some (with_status new u)
         ∧ new = (if bool_decide (status u = Some "Active") then "Inactive" else "Active").
Proof.
  intros Hu [Hst|[Hst|Hst]].
  - exists "Active". rewrite (set_status_to_active code u s Hu (or_introl Hst)).
    split; [reflexivity|]. split; [exact (lookup_update_status code "Active" u s Hu)|].
    rewrite Hst. reflexivity.
  - exists "Inactive". rewrite (set_status_to_inactive code u s Hu Hst).
    split; [reflexivity|]. split; [exact (lookup_update_status code "Inactive" u s Hu)|].
    rewrite Hst. reflexivity.
  - exists "Active". rewrite (set_status_to_active code u s Hu (or_intror Hst)).
    split; [reflexivity|]. split; [exact (lookup_update_status code "Active" u s Hu)|].
    rewrite Hst. reflexivity.
Qed.

End Directory.

(** C6 (as stated) fails: with no open entry for the code, [logout]
    returns normally and the store is unchanged. *)
Lemma logout_without_open_session :
  let s := (UsersDao.init empty_store).2 in
  open_sessions "h65ld310" (Logins s) = []
  ∧ UsersDao.logout "h65ld310" "t" s = (Ok (), s).
Proof. vm_compute. split; reflexivity. Qed.

(** ** Adding users and reading them back *)

Section RoundTrip.
Import UsersDao.
Context {lib : ImageLibrary}.
Implicit Types (s : store) (code : string) (t : gmap string user_row).



Lemma keys_elem_of t code : code ∈ (map_to_list t).*1 ↔ is_Some (t !! code).
Proof.
  rewrite list_elem_of_fmap. split.
  - intros ([k u] & -> & Hin). apply elem_of_map_to_list in Hin. by exists u.
  - intros [u Hu]. exists (code, u). split; [reflexivity|].
    by apply elem_of_map_to_list.
Qed.

Lemma insert_or_ignore_user_is_Some code u t code' :
  is_Some (insert_or_ignore_user code u t !! code') ↔ code' = code ∨ is_Some (t !! code').
Proof.
  unfold insert_or_ignore_user. destruct (t !! code) as [v|] eqn:E.
  - split; [by right|]. intros [->|H]; [by exists v|exact H].
  - destruct (decide (code = code')) as [<-|Hne].
    + rewrite lookup_insert_eq. split; [by left|by exists u].
    + rewrite lookup_insert_ne by exact Hne. split; [by right|].
      intros [->|H]; [contradiction|exact H].
Qed.


End RoundTrip.


(** ** The values of the status column *)

Section StatusValues.
Import UsersDao QrLogger.
Context {lib : ImageLibrary} {frame : Type}.
Implicit Types (s : store) (code : string) (ts : timestamp).

Lemma tri_state_Active : tri_state (Some "Active").
Proof. right. left. reflexivity. Qed.

Lemma tri_state_Inactive : tri_state (Some "Inactive").
Proof. right. right. reflexivity. Qed.

Lemma statuses_ok_same_Users s s' :
  Users s' = Users s → statuses_ok s → statuses_ok s'.
Proof. intros E H code u. rewrite E. apply H. Qed.

Lemma statuses_ok_update_status code new s s' :
  tri_state (Some new) →
  Users s' = update_status code new (Users s) →
  statuses_ok s → statuses_ok s'.
Proof.
  intros Hnew E H code' u. rewrite E. unfold update_status.
  destruct (decide (code = code')) as [<-|Hne].
  - rewrite lookup_alter_eq. destruct (Users s !! code) as [v|]; [|discriminate].
    simpl. intros [= <-]. exact Hnew.
  - rewrite lookup_alter_ne by exact Hne. apply H.
Qed.

Lemma statuses_ok_add_user code f l e st s :
  tri_state st → statuses_ok s → statuses_ok (add_user code f l e st s).2.
Proof.
  intros Hst H code' u. rewrite Users_add_user. unfold insert_or_ignore_user.
  destruct (Users s !! code) eqn:E; [apply H|].
  destruct (decide (code = code')) as [<-|Hne].
  - rewrite lookup_insert_eq. intros [= <-]. exact Hst.
  - rewrite lookup_insert_ne by exact Hne. apply H.
Qed.

Lemma statuses_ok_login ts code s : statuses_ok s → statuses_ok (login ts code s).2.
Proof.
  apply statuses_ok_same_Users.
  destruct (has_timestamp ts (Logins s)) eqn:E.
  - by rewrite login_duplicate.
  - by rewrite login_fresh.
Qed.

Lemma statuses_ok_set_status code s : statuses_ok s → statuses_ok (set_status code s).2.
Proof.
  intros H. destruct (Users s !! code) as [u|] eqn:Hu.
  - destruct (status_cases u) as [Hst|[Hst|Hst]].
    + rewrite (set_status_to_active code u s Hu Hst).
      by apply (statuses_ok_update_status code "Active" s _ tri_state_Active).
    + rewrite (set_status_to_inactive code u s Hu Hst).
      by apply (statuses_ok_update_status code "Inactive" s _ tri_state_Inactive).
    + by rewrite (set_status_unrecognized code u s Hu Hst).
  - by rewrite (set_status_absent code s Hu).
Qed.

Lemma statuses_ok_log_qr_activity (i : info (frame := frame)) s :
  statuses_ok s → statuses_ok (log_qr_activity i s).2.
Proof.
  intros H. destruct i as [fr [[code now]|]]; [|exact H].
  destruct (log_qr_activity_store fr code now s)
    as [[-> _]|[(u & Hu & Hst & [-> | ->])|[->|(u & Hu & Hst & ->)]]].
  - exact H.
  - by apply (statuses_ok_update_status code "Active" s _ tri_state_Active).
  - by apply (statuses_ok_update_status code "Active" s _ tri_state_Active).
  - by apply (statuses_ok_update_status code "Inactive" s _ tri_state_Inactive).
  - by apply (statuses_ok_same_Users s).
Qed.

(** C10 (as amended).  [set_status], [login], [logout] and
    [log_qr_activity] keep every stored status among unset, Active and
    Inactive, and [add_user] stores the status it is given: after any
    sequence of calls in which every [add_user] was given one of the three
    values, every stored status is one of the three. *)
Theorem statuses_stay_tri_state (calls : list (call frame)) s :
  statuses_ok s →
  (∀ code f l e st, CallAddUser code f l e st ∈ calls → tri_state st) →
  statuses_ok (foldl exec s calls).
Proof.
  revert s. induction calls as [|c calls IH]; intros s Hs Hadd; [exact Hs|].
  simpl. apply IH.
  - destruct c as [code f l e st|ts code|code t|code|i]; simpl.
    + apply statuses_ok_add_user; [|exact Hs]. apply (Hadd code f l e). by left.
    + by apply statuses_ok_login.
    + by apply (statuses_ok_same_Users s).
    + by apply statuses_ok_set_status.
    + by apply statuses_ok_log_qr_activity.
  - intros code f l e st Hin. apply (Hadd code f l e). by right.
Qed.

End StatusValues.

Lemma statuses_stay_tri_state_witness :
  statuses_ok
    (foldl exec empty_store
       [ CallAddUser "h65ld310" "John" "Buck" "jbuck@gmail.com" None;
         CallSetStatus "h65ld310";
         CallLogin "t1" "h65ld310";
         CallLogQrActivity ((), Some ("h65ld310", clock_2)) ]).
Proof.
  apply (statuses_stay_tri_state (frame := ())).
  - intros code u H. vm_compute in H. discriminate.
  - intros code f l e st Hin. apply list_elem_of_In in Hin. simpl in Hin.
    destruct Hin as [[= <- <- <- <- <-]|[H|[H|[H|[]]]]]; try discriminate.
    left. reflexivity.
Defined.

(** C10 (as stated) fails: [add_user] stores whatever status it is given. *)
Lemma add_user_stores_any_status :
  let s := (UsersDao.add_user "x9y8z7w6" "Sam" "Poe" "spoe@gmail.com" (Some "Suspended")
              empty_store).2 in
  status_of s "x9y8z7w6" = Some (Some "Suspended") ∧ ¬ tri_state (Some "Suspended").
Proof.
  split; [vm_compute; reflexivity|]. intros [H|[H|H]]; discriminate.
Qed.

(** ** The scan deduplicator *)

Section Deduplicator.
Import UsersDao QrLogger.
Context {frame : Type} (decode : frame → outcome (list (option string))).
Implicit Types (self : t) (fr : frame) (now : reading) (recent : list string)
  (frames : list (frame * reading)).

(** A code that is in the array is found in it. *)
Lemma np_contains_elem (arr : list string) code :
  code ∈ arr → np_contains arr code = true.
Proof.
  intros Hin. unfold np_contains. apply bool_decide_eq_true_2.
  apply list_elem_of_fmap. by exists code.
Qed.

Lemma process_qr_blank self fr now recent :
  decode fr = Ok [] →
  process_qr decode self fr now recent = (Ok (fr, None), recent).
Proof. intros H. unfold process_qr. rewrite H. reflexivity. Qed.

Lemma process_qr_unmatched self fr now recent code rest :
  decode fr = Ok (Some code :: rest) →
  np_contains (authorized_users self) code = false →
  process_qr decode self fr now recent = (Ok (fr, None), recent).
Proof. intros H Hn. unfold process_qr. rewrite H, Hn. reflexivity. Qed.

Lemma process_qr_matched self fr now recent code rest :
  decode fr = Ok (Some code :: rest) →
  np_contains (authorized_users self) code = true →
  last recent ≠ Some code →
  process_qr decode self fr now recent = (Ok (fr, Some (code, now)), recent ++ [code]).
Proof.
  intros H Hin Hl. unfold process_qr. rewrite H, Hin.
  rewrite (bool_decide_eq_true_2 (last recent ≠ Some code)) by exact Hl.
  rewrite orb_true_r. reflexivity.
Qed.

Lemma process_qr_accept self fr now recent code rest :
  decode fr = Ok (Some code :: rest) →
  code ∈ authorized_users self →
  last recent ≠ Some code →
  process_qr decode self fr now recent = (Ok (fr, Some (code, now)), recent ++ [code]).
Proof.
  intros H Hin. apply (process_qr_matched self fr now recent code rest H).
  by apply np_contains_elem.
Qed.

Lemma process_qr_suppress self fr now recent code rest :
  decode fr = Ok (Some code :: rest) →
  last recent = Some code →
  process_qr decode self fr now recent = (Ok (fr, None), recent).
Proof.
  intros H Hl. unfold process_qr. rewrite H.
  destruct (np_contains (authorized_users self) code); [|reflexivity].
  rewrite (bool_decide_eq_false_2 (last recent ≠ Some code)) by (intros Hn; by apply Hn).
  rewrite bool_decide_eq_false_2; [reflexivity|].
  destruct recent; [discriminate|simpl; lia].
Qed.

Lemma process_frames_suppressed self code frames recent :
  last recent = Some code →
  (∀ f, f ∈ frames → ∃ rest, decode f.1 = Ok (Some code :: rest)) →
  process_frames decode self frames recent = not_accepted <$> frames.
Proof.
  intros Hl. induction frames as [|[fr now] frames IH]; intros Hall; [reflexivity|].
  destruct (Hall (fr, now)) as [rest Hd]; [by left|]. simpl.
  rewrite (process_qr_suppress self fr now recent code rest Hd Hl). simpl.
  rewrite IH; [reflexivity|]. intros f Hf. apply Hall. by right.
Qed.

Lemma process_frames_blanks self blanks frames recent :
  (∀ f, f ∈ blanks → decode f.1 = Ok []) →
  process_frames decode self (blanks ++ frames) recent
  = (not_accepted <$> blanks) ++ process_frames decode self frames recent.
Proof.
  induction blanks as [|[fr now] blanks IH]; intros Hall; [reflexivity|].
  simpl. rewrite (process_qr_blank self fr now recent (Hall (fr, now) ltac:(by left))).
  simpl. rewrite IH; [reflexivity|]. intros f Hf. apply Hall. by right.
Qed.

Lemma accepted_events_not_accepted frames :
  accepted_events (not_accepted <$> frames) = 0.
Proof. induction frames as [|f frames IH]; [reflexivity|exact IH]. Qed.

Lemma accepted_events_app (rs1 rs2 : list (outcome (info (frame := frame)))) :
  accepted_events (rs1 ++ rs2) = accepted_events rs1 + accepted_events rs2.
Proof. unfold accepted_events. rewrite List.filter_app. apply length_app. Qed.

(** C5 (as amended).  One or more consecutive frames that all decode to
    the same whitelisted code, the code not being the last one accepted
    before them: the first frame is accepted, each later one is returned
    without code or timestamp, so the stretch yields exactly one scan
    event. *)
Theorem same_code_accepted_once self code fr now frames recent :
  code ∈ authorized_users self →
  last recent ≠ Some code →
  (∀ f, f ∈ (fr, now) :: frames → ∃ rest, decode f.1 = Ok (Some code :: rest)) →
  process_frames decode self ((fr, now) :: frames) recent
  = Ok (fr, Some (code, now)) :: (not_accepted <$> frames)
  ∧ accepted_events (process_frames decode self ((fr, now) :: frames) recent) = 1.
Proof.
  intros Hin Hl Hall.
  assert (E : process_frames decode self ((fr, now) :: frames) recent
              = Ok (fr, Some (code, now)) :: (not_accepted <$> frames)).
  { destruct (Hall (fr, now)) as [rest Hd]; [by left|]. simpl.
    rewrite (process_qr_accept self fr now recent code rest Hd Hin Hl). simpl.
    f_equal. apply (process_frames_suppressed self code).
    - apply last_snoc.
    - intros f Hf. apply Hall. by right. }
  split; [exact E|]. rewrite E.
  change (accepted_events (Ok (fr, Some (code, now)) :: (not_accepted <$> frames)))
    with (S (accepted_events (not_accepted <$> frames))).
  by rewrite accepted_events_not_accepted.
Qed.

(** C4 (as amended).  A whitelisted code is presented and accepted, then
    one or more frames show no code, then the same code is presented
    again, no other code having been accepted in between: the second
    presentation is not accepted, the frames without a code leave
    [recent_accesses] as it was, and the stretch yields one scan event. *)
Theorem absence_does_not_reset self code fr1 now1 blanks fr2 now2 rest1 rest2 recent :
  code ∈ authorized_users self →
  last recent ≠ Some code →
  decode fr1 = Ok (Some code :: rest1) →
  decode fr2 = Ok (Some code :: rest2) →
  blanks ≠ [] →
  (∀ f, f ∈ blanks → decode f.1 = Ok []) →
  process_frames decode self ((fr1, now1) :: blanks ++ [(fr2, now2)]) recent
  = Ok (fr1, Some (code, now1)) :: (not_accepted <$> blanks) ++ [Ok (fr2, None)]
  ∧ accepted_events
      (process_frames decode self ((fr1, now1) :: blanks ++ [(fr2, now2)]) recent) = 1.
Proof.
  intros Hin Hl Hd1 Hd2 _ Hblank.
  assert (E : process_frames decode self ((fr1, now1) :: blanks ++ [(fr2, now2)]) recent
              = Ok (fr1, Some (code, now1)) :: (not_accepted <$> blanks) ++ [Ok (fr2, None)]).
  { simpl. rewrite (process_qr_accept self fr1 now1 recent code rest1 Hd1 Hin Hl). simpl.
    f_equal. rewrite (process_frames_blanks self blanks _ _ Hblank). f_equal. simpl.
    rewrite (process_qr_suppress self fr2 now2 _ code rest2 Hd2 (last_snoc _ _)).
    reflexivity. }
  split; [exact E|]. rewrite E.
  change (accepted_events (Ok (fr1, Some (code, now1)) :: (not_accepted <$> blanks) ++ [Ok (fr2, None)]))
    with (S (accepted_events ((not_accepted <$> blanks) ++ [Ok (fr2, None)]))).
  rewrite accepted_events_app, accepted_events_not_accepted. reflexivity.
Qed.

(** Another whitelisted code accepted in between is what lets the first
    code be accepted again. *)
Lemma other_code_resets self code other fr1 now1 fr now fr2 now2 rest1 rest rest2 recent :
  code ∈ authorized_users self → other ∈ authorized_users self → other ≠ code →
  last recent ≠ Some code →
  decode fr1 = Ok (Some code :: rest1) →
  decode fr = Ok (Some other :: rest) →
  decode fr2 = Ok (Some code :: rest2) →
  process_frames decode self [(fr1, now1); (fr, now); (fr2, now2)] recent
  = [Ok (fr1, Some (code, now1)); Ok (fr, Some (other, now)); Ok (fr2, Some (code, now2))].
Proof.
  intros Hin Hin' Hne Hl Hd1 Hd Hd2. simpl.
  rewrite (process_qr_accept self fr1 now1 recent code rest1 Hd1 Hin Hl). simpl.
  rewrite (process_qr_accept self fr now _ other rest Hd Hin').
  2:{ rewrite last_snoc. congruence. }
  simpl. rewrite (process_qr_accept self fr2 now2 _ code rest2 Hd2 Hin).
  2:{ rewrite last_snoc. congruence. }
  reflexivity.
Qed.

End Deduplicator.

Lemma seeded_logger_codes :
  "h65ld310" ∈ QrLogger.authorized_users seeded_logger
  ∧ "d08ae169" ∈ QrLogger.authorized_users seeded_logger.
Proof. split; apply list_elem_of_In; vm_compute; tauto. Qed.

Lemma same_code_accepted_once_witness :
  process_frames shown seeded_logger
    [([Some "h65ld310"], clock_1); ([Some "h65ld310"], clock_2);
     ([Some "h65ld310"], clock_3)] []
  = [Ok ([Some "h65ld310"], Some ("h65ld310", clock_1));
     Ok ([Some "h65ld310"], None); Ok ([Some "h65ld310"], None)]
  ∧ accepted_events
      (process_frames shown seeded_logger
         [([Some "h65ld310"], clock_1); ([Some "h65ld310"], clock_2);
          ([Some "h65ld310"], clock_3)] []) = 1.
Proof.
  apply (same_code_accepted_once shown seeded_logger
           "h65ld310" [Some "h65ld310"] clock_1
           [([Some "h65ld310"], clock_2); ([Some "h65ld310"], clock_3)] []).
  - apply seeded_logger_codes.
  - discriminate.
  - intros f Hf. apply list_elem_of_In in Hf. simpl in Hf.
    destruct Hf as [<-|[<-|[<-|[]]]]; exists []; reflexivity.
Defined.

(** C5 (as stated) fails: John Buck's code is accepted, a frame shows no
    code, then two consecutive frames show his code again with no absence
    between them; his code is still the last accepted one, so the two
    frames yield no scan event at all. *)
Lemma same_code_after_itself_no_event :
  let before := [([Some "h65ld310"], clock_1); ([], clock_2)] in
  let stretch := [([Some "h65ld310"], clock_3); ([Some "h65ld310"], clock_4)] in
  "h65ld310" ∈ QrLogger.authorized_users seeded_logger
  ∧ recent_after shown seeded_logger before [] = ["h65ld310"]
  ∧ process_frames shown seeded_logger stretch ["h65ld310"]
    = [Ok ([Some "h65ld310"], None); Ok ([Some "h65ld310"], None)]
  ∧ accepted_events (process_frames shown seeded_logger stretch ["h65ld310"]) = 0.
Proof.
  split; [apply seeded_logger_codes|].
  vm_compute. repeat split; reflexivity.
Qed.

Lemma absence_does_not_reset_witness :
  process_frames shown seeded_logger
    [([Some "h65ld310"], clock_1); ([], clock_2); ([Some "h65ld310"], clock_3)] []
  = [Ok ([Some "h65ld310"], Some ("h65ld310", clock_1)); Ok ([], None);
     Ok ([Some "h65ld310"], None)]
  ∧ accepted_events
      (process_frames shown seeded_logger
         [([Some "h65ld310"], clock_1); ([], clock_2); ([Some "h65ld310"], clock_3)] []) = 1.
Proof.
  apply (absence_does_not_reset shown seeded_logger
           "h65ld310" [Some "h65ld310"] clock_1 [([], clock_2)] [Some "h65ld310"] clock_3
           [] [] []).
  - apply seeded_logger_codes.
  - discriminate.
  - reflexivity.
  - reflexivity.
  - discriminate.
  - intros f Hf. apply list_elem_of_In in Hf. simpl in Hf.
    destruct Hf as [<-|[]]. reflexivity.
Defined.

(** C4 (as stated) fails: John Buck's code, a frame without a code, his
    code again; the second presentation is the last accepted code and is
    dropped, so there is one scan event and not two. *)
Lemma absence_then_same_code_one_event :
  let rs := process_frames shown seeded_logger
              [([Some "h65ld310"], clock_1); ([], clock_2); ([Some "h65ld310"], clock_3)] [] in
  "h65ld310" ∈ QrLogger.authorized_users seeded_logger
  ∧ rs !! 2 = Some (Ok ([Some "h65ld310"], None))
  ∧ accepted_events rs = 1
  ∧ accepted_events rs ≠ 2.
Proof.
  split; [apply seeded_logger_codes|].
  vm_compute. split; [reflexivity|]. split; [reflexivity|]. discriminate.
Qed.

(** ** Codes without a row *)

Section UnknownCodes.
Import UsersDao QrLogger.
Context {lib : ImageLibrary}.
Context {frame : Type} (decode : frame → outcome (list (option string))).
Implicit Types (s : store) (code : string) (sys : system).

Lemma is_Some_update_status code new (t : gmap string user_row) code' :
  is_Some (t !! code') → is_Some (update_status code new t !! code').
Proof.
  intros [u Hu]. unfold update_status. destruct (decide (code = code')) as [<-|Hne].
  - rewrite lookup_alter_eq, Hu. by eexists.
  - rewrite lookup_alter_ne by exact Hne. by exists u.
Qed.

Lemma users_kept_add_user code f l e st s code' :
  is_Some (Users s !! code') → is_Some (Users (add_user code f l e st s).2 !! code').
Proof.
  intros H. rewrite Users_add_user.
  apply insert_or_ignore_user_is_Some. by right.
Qed.

Lemma users_kept_log_qr_activity (i : info (frame := frame)) s code' :
  is_Some (Users s !! code') → is_Some (Users (log_qr_activity i s).2 !! code').
Proof.
  intros H. destruct i as [fr [[code now]|]]; [|exact H].
  destruct (log_qr_activity_store fr code now s)
    as [[-> _]|[(u & Hu & Hst & [-> | ->])|[->|(u & Hu & Hst & ->)]]];
    simpl; try exact H; by apply is_Some_update_status.
Qed.

Lemma users_kept_init s code' :
  is_Some (Users s !! code') → is_Some (Users (init s).2 !! code').
Proof.
  intros H. rewrite init_store.
  destruct (UsersDao_init_cases s) as [-> | ->]; by repeat apply users_kept_add_user.
Qed.

Lemma init_whitelist s self s' :
  init s = (Ok self, s') →
  ∀ code, code ∈ authorized_users self → is_Some (Users s' !! code).
Proof.
  unfold init, mbind, py_bind.
  destruct (UsersDao.init s) as [[[]|e] s1]; [|discriminate].
  unfold get_whitelist, get, mbind, py_bind.
  destruct ((map_to_list (Users s1)).*1) as [|c0 wl] eqn:E; [discriminate|].
  intros [= <- <-] code. simpl. rewrite <- E. apply keys_elem_of.
Qed.

Lemma whitelist_sound_sys_step sys (ev : event (frame := frame)) :
  whitelist_sound sys → whitelist_sound (sys_step decode sys ev).
Proof.
  intros H. destruct ev as [code f l e st| |fr now|]; simpl.
  - intros self recent Hs c Hc. simpl in *.
    apply users_kept_add_user. by apply (H self recent).
  - destruct (init (disk sys)) as [[self|e] d] eqn:E.
    + intros self' recent [= <- <-] c Hc. simpl. by apply (init_whitelist _ _ _ E).
    + intros self' recent [=].
  - destruct (session sys) as [[self recent]|] eqn:Es; [|exact H].
    destruct (run_frame_store decode self fr now recent (disk sys)) as [E|[i E]];
      destruct (run_frame decode self fr now recent (disk sys)) as [[[shown' recent']|e] d];
      simpl in *; subst d; intros self' r' [=]; subst; intros c Hc;
      try apply users_kept_log_qr_activity; by apply (H self' recent).
  - intros self recent [=].
Qed.

Lemma whitelist_sound_sys_run (evs : list (event (frame := frame))) :
  whitelist_sound (sys_run decode evs).
Proof.
  unfold sys_run.
  assert (G : ∀ sys, whitelist_sound sys → whitelist_sound (foldl (sys_step decode) sys evs)).
  { induction evs as [|ev evs IH]; intros sys H; [exact H|].
    simpl. apply IH. by apply whitelist_sound_sys_step. }
  apply G. intros self recent [=].
Qed.

(** A frame whose first payload matches no entry of the cached whitelist
    is returned as it is, [recent_accesses] and the whole store staying as
    they were. *)
Lemma unmatched_code_no_effect self recent code (fr : frame) now rest s :
  np_contains (authorized_users self) code = false →
  decode fr = Ok (Some code :: rest) →
  process_qr decode self fr now recent = (Ok (fr, None), recent)
  ∧ run_frame decode self fr now recent s = (Ok (fr, recent), s).
Proof.
  intros Hn Hd.
  pose proof (process_qr_unmatched decode self fr now recent code rest Hd Hn) as E.
  split; [exact E|]. unfold run_frame. rewrite E. reflexivity.
Qed.

End UnknownCodes.

(** C7, at the failing input: in a session started on a fresh database, a
    frame shows John Buck's code followed by a NUL character.  The payload
    has no row, but the membership test on the numpy array disregards the
    trailing NUL: [process_qr] accepts it and appends it to
    [recent_accesses], and [log_qr_activity] dies with the TypeError of
    [set_status] instead of returning the frame (no status and no ledger
    entry is written). *)
Theorem nul_padded_code_accepted :
  let sys := QrLogger.sys_run shown [QrLogger.EvStart] in
  QrLogger.session sys = Some (seeded_logger, [])
  ∧ Users (QrLogger.disk sys) !! nul_padded = None
  ∧ (nul_padded ∉ QrLogger.authorized_users seeded_logger)
  ∧ QrLogger.process_qr shown seeded_logger [Some nul_padded] clock_1 []
    = (Ok ([Some nul_padded], Some (nul_padded, clock_1)), [nul_padded])
  ∧ QrLogger.run_frame shown seeded_logger [Some nul_padded] clock_1 [] (QrLogger.disk sys)
    = (Raise TypeError, QrLogger.disk sys)
  ∧ QrLogger.session (QrLogger.sys_step shown sys (QrLogger.EvFrame [Some nul_padded] clock_1))
    = None.
Proof.
  cbv zeta. split; [vm_compute; reflexivity|]. split; [vm_compute; reflexivity|].
  split.
  - intros Hin. apply list_elem_of_In in Hin. revert Hin. vm_compute.
    intros [H|[H|[]]]; discriminate.
  - vm_compute. repeat split; reflexivity.
Qed.

(** * Further properties of the code *)

(** ** The directory *)

Section DirectoryMore.
Import UsersDao.
Context {lib : ImageLibrary}.
Implicit Types (s : store) (code : string) (t : gmap string user_row).

Lemma get_whitelist_rows s :
  Users s ≠ ∅ →
  ∃ whitelist, get_whitelist s = (Ok whitelist, s)
    ∧ NoDup whitelist
    ∧ ∀ code, code ∈ whitelist ↔ is_Some (Users s !! code).
Proof.
  intros Hne. exists (map_to_list (Users s)).*1.
  split; [|split; [apply NoDup_fst_map_to_list | intros code; apply keys_elem_of]].
  unfold get_whitelist, mbind, py_bind, get.
  destruct ((map_to_list (Users s)).*1) as [|c0 wl] eqn:E; [|reflexivity].
  exfalso. apply Hne. apply map_to_list_empty_iff.
  by apply fmap_nil_inv in E.
Qed.


Lemma insert_or_ignore_user_idem code u t :
  insert_or_ignore_user code u (insert_or_ignore_user code u t)
  = insert_or_ignore_user code u t.
Proof.
  unfold insert_or_ignore_user. destruct (t !! code) as [v|] eqn:E.
  - rewrite E. reflexivity.
  - rewrite lookup_insert_eq. reflexivity.
Qed.

Lemma add_user_idem code f l e st s :
  add_user code f l e st (add_user code f l e st s).2 = add_user code f l e st s.
Proof.
  rewrite (add_user_eq code f l e st s).
  destruct (make_qr_error code (f +:+ l +:+ ".jpg")) as [err|] eqn:E;
    rewrite add_user_eq, E; f_equal; unfold with_qr_images, with_Users; simpl.
  - by rewrite insert_or_ignore_user_idem.
  - by rewrite insert_or_ignore_user_idem, insert_insert_eq.
Qed.

(** X2.  Adding the same user a second time changes nothing at all: the
    row is skipped, and the provisioning image is written again with the
    same content or refused again with the same exception. *)
Theorem add_user_twice code f l e st s :
  add_user code f l e st (add_user code f l e st s).2 = add_user code f l e st s.
Proof. apply add_user_idem. Qed.

Lemma string_append_assoc (a b c : string) : (a +:+ b) +:+ c = a +:+ b +:+ c.
Proof.
  induction a as [|x a IH]; [reflexivity|].
  change (String x ((a +:+ b) +:+ c) = String x (a +:+ b +:+ c)). by rewrite IH.
Qed.

(** X3.  The provisioning image is stored under first name + last name:
    when two users are added whose names concatenate to the same text and
    the library writes both images, one file is left under that name and
    it encodes the code of the second; the first user's code survives only
    in images that were there before. *)
Theorem qr_image_keyed_by_name s code1 f1 l1 e1 st1 code2 f2 l2 e2 st2 :
  f1 +:+ l1 = f2 +:+ l2 →
  code1 ≠ code2 →
  make_qr_error code1 (f1 +:+ l1 +:+ ".jpg") = None →
  make_qr_error code2 (f2 +:+ l2 +:+ ".jpg") = None →
  let s2 := (add_user code2 f2 l2 e2 st2 (add_user code1 f1 l1 e1 st1 s).2).2 in
  qr_images s2 !! (f1 +:+ l1 +:+ ".jpg") = Some code2
  ∧ ∀ name, qr_images s2 !! name = Some code1 → qr_images s !! name = Some code1.
Proof.
  intros Hname Hne Hw1 Hw2. cbv zeta. rewrite !add_user_eq, Hw1, Hw2. simpl.
  assert (Hfile : f1 +:+ l1 +:+ ".jpg" = f2 +:+ l2 +:+ ".jpg").
  { rewrite <- !string_append_assoc. by rewrite Hname. }
  rewrite <- Hfile. rewrite insert_insert_eq. split; [apply lookup_insert_eq|].
  intros name H. destruct (decide (f1 +:+ l1 +:+ ".jpg" = name)) as [<-|Hn].
  - rewrite lookup_insert_eq in H. congruence.
  - by rewrite lookup_insert_ne in H.
Qed.

End DirectoryMore.

Lemma qr_image_keyed_by_name_witness :
  let s2 := (UsersDao.add_user "e5f6a7b8" "John" "Buck" "jb2@gmail.com" None
               (UsersDao.add_user "a1b2c3d4" "Jo" "hnBuck" "jb1@gmail.com" None empty_store).2).2 in
  qr_images s2 !! ("Jo" +:+ "hnBuck" +:+ ".jpg") = Some "e5f6a7b8"
  ∧ ∀ name, qr_images s2 !! name = Some "a1b2c3d4"
            → qr_images empty_store !! name = Some "a1b2c3d4".
Proof.
  apply (qr_image_keyed_by_name empty_store "a1b2c3d4" "Jo" "hnBuck" "jb1@gmail.com" None
           "e5f6a7b8" "John" "Buck" "jb2@gmail.com" None).
  - reflexivity.
  - discriminate.
  - reflexivity.
  - reflexivity.
Defined.

(** ** Constructing the objects again *)

Section Construction.
Import UsersDao.
Context {lib : ImageLibrary}.
Implicit Types (s : store) (code : string) (t : gmap string user_row).

Lemma insert_or_ignore_user_present code u t :
  is_Some (t !! code) → insert_or_ignore_user code u t = t.
Proof. intros [v H]. unfold insert_or_ignore_user. by rewrite H. Qed.

Lemma insert_or_ignore_user_keeps code v t code' u :
  t !! code' = Some u → insert_or_ignore_user code v t !! code' = Some u.
Proof.
  intros H. unfold insert_or_ignore_user. destruct (t !! code) eqn:E; [exact H|].
  rewrite lookup_insert_ne; [exact H|]. intros ->. congruence.
Qed.

(** A user who has a row, and whose image is in place where the library
    would write it, is added to no effect. *)
Lemma add_user_absorbed code f l e st s :
  is_Some (Users s !! code) →
  (make_qr_error code (f +:+ l +:+ ".jpg") = None →
   qr_images s !! (f +:+ l +:+ ".jpg") = Some code) →
  (add_user code f l e st s).2 = s.
Proof.
  intros Hrow Himg. rewrite add_user_eq.
  destruct (make_qr_error code (f +:+ l +:+ ".jpg")); simpl;
    unfold with_qr_images, with_Users; simpl;
    rewrite (insert_or_ignore_user_present _ _ _ Hrow).
  - by destruct s.
  - rewrite insert_id by auto. by destruct s.
Qed.

Lemma add_user_outcome code f l e st s :
  (add_user code f l e st s).1
  = match make_qr_error code (f +:+ l +:+ ".jpg") with
    | Some err => Raise err
    | None => Ok ()
    end.
Proof. rewrite add_user_eq. by destruct (make_qr_error _ _). Qed.

Lemma qr_images_add_user code f l e st s :
  make_qr_error code (f +:+ l +:+ ".jpg") = None →
  qr_images (add_user code f l e st s).2
  = <[f +:+ l +:+ ".jpg" := code]> (qr_images s).
Proof. intros E. by rewrite add_user_eq, E. Qed.

Lemma qr_images_add_user_refused code f l e st s err :
  make_qr_error code (f +:+ l +:+ ".jpg") = Some err →
  qr_images (add_user code f l e st s).2 = qr_images s.
Proof. intros E. by rewrite add_user_eq, E. Qed.

Lemma UsersDao_init_eq s :
  init s
  = match add_user "h65ld310" "John" "Buck" "jbuck@gmail.com" None s with
    | (Ok _, s1) => add_user "d08ae169" "Jane" "Doe" "jdoe@gmail.com" None s1
    | (Raise err, s1) => (Raise err, s1)
    end.
Proof. reflexivity. Qed.

Lemma QrLogger_init_eq s :
  QrLogger.init s
  = match init s with
    | (Ok _, s1) => (whitelist ← get_whitelist ; mret (QrLogger.mk_logger whitelist)) s1
    | (Raise err, s1) => (Raise err, s1)
    end.
Proof. reflexivity. Qed.

Lemma seeded_names_differ : "John" +:+ "Buck" +:+ ".jpg" ≠ "Jane" +:+ "Doe" +:+ ".jpg".
Proof. discriminate. Qed.

(** [Users.__init__] on the database it left does the same again and
    leaves it as it is. *)
Lemma UsersDao_init_idem s : init (init s).2 = init s.
Proof.
  set (john := add_user "h65ld310" "John" "Buck" "jbuck@gmail.com" None).
  set (jane := add_user "d08ae169" "Jane" "Doe" "jdoe@gmail.com" None).
  assert (Hi : ∀ x, init x = match john x with
                             | (Ok _, s1) => jane s1
                             | (Raise err, s1) => (Raise err, s1)
                             end) by (intros x; apply UsersDao_init_eq).
  rewrite (Hi s).
  destruct (john s) as [[[]|err] s1] eqn:E1.
  - (* John's image was written *)
    assert (E1o : make_qr_error "h65ld310" ("John" +:+ "Buck" +:+ ".jpg") = None).
    { pose proof (add_user_outcome "h65ld310" "John" "Buck" "jbuck@gmail.com" None s) as Ho.
      fold john in Ho. rewrite E1 in Ho. simpl in Ho.
      destruct (make_qr_error _ _); [discriminate|reflexivity]. }
    assert (Es1 : s1 = (john s).2) by (by rewrite E1).
    assert (Hjohn : john (jane s1).2 = (Ok (), (jane s1).2)).
    { assert (Hst : (john (jane s1).2).2 = (jane s1).2).
      { unfold john. apply add_user_absorbed.
        - unfold jane. apply users_kept_add_user. rewrite Es1. unfold john.
          rewrite Users_add_user. apply insert_or_ignore_user_is_Some. by left.
        - intros _. unfold jane.
          destruct (make_qr_error "d08ae169" ("Jane" +:+ "Doe" +:+ ".jpg")) as [err|] eqn:E2.
          + rewrite (qr_images_add_user_refused _ _ _ _ _ _ err E2).
            rewrite Es1. unfold john. rewrite (qr_images_add_user _ _ _ _ _ _ E1o).
            apply lookup_insert_eq.
          + rewrite (qr_images_add_user _ _ _ _ _ _ E2).
            rewrite lookup_insert_ne by (intros Heq; by apply seeded_names_differ).
            rewrite Es1. unfold john. rewrite (qr_images_add_user _ _ _ _ _ _ E1o).
            apply lookup_insert_eq. }
      pose proof (add_user_outcome "h65ld310" "John" "Buck" "jbuck@gmail.com" None
                    (jane s1).2) as Ho.
      fold john in Ho. rewrite E1o in Ho.
      destruct (john (jane s1).2) as [o x]. simpl in *. by subst. }
    rewrite (Hi (jane s1).2), Hjohn. unfold jane. apply add_user_idem.
  - (* John's image was refused *)
    assert (Es1 : s1 = (john s).2) by (by rewrite E1).
    simpl. rewrite (Hi s1), Es1. unfold john. rewrite add_user_idem.
    fold john. by rewrite E1.
Qed.

(** X4.  Constructing the logger once more on the database it left (a
    restart of the program, or the second [Users()] of the tests) changes
    nothing and ends as the first construction did, with the same
    whitelist or the same exception; and a construction on any database
    keeps the ledger, the log images and every existing user row, status
    included. *)
Theorem construction_keeps_database s :
  QrLogger.init (QrLogger.init s).2 = QrLogger.init s
  ∧ Logins (QrLogger.init s).2 = Logins s
  ∧ log_images (QrLogger.init s).2 = log_images s
  ∧ ∀ code u, Users s !! code = Some u → Users (QrLogger.init s).2 !! code = Some u.
Proof.
  assert (Hst : (QrLogger.init s).2 = (init s).2) by apply init_store.
  split; [|split; [|split]].
  - rewrite Hst. rewrite !QrLogger_init_eq. by rewrite UsersDao_init_idem.
  - rewrite Hst.
    destruct (UsersDao_init_cases s) as [-> | ->]; by rewrite ?Logins_add_user.
  - rewrite Hst.
    destruct (UsersDao_init_cases s) as [-> | ->]; by rewrite ?log_images_add_user.
  - intros code u Hu. rewrite Hst.
    destruct (UsersDao_init_cases s) as [-> | ->]; rewrite ?Users_add_user;
      by repeat apply insert_or_ignore_user_keeps.
Qed.

(** When the two seeded images are written, the constructor returns. *)
Lemma QrLogger_init_returns s :
  make_qr_error "h65ld310" ("John" +:+ "Buck" +:+ ".jpg") = None →
  make_qr_error "d08ae169" ("Jane" +:+ "Doe" +:+ ".jpg") = None →
  ∃ self, QrLogger.init s = (Ok self, (init s).2)
    ∧ NoDup (QrLogger.authorized_users self)
    ∧ ∀ code, code ∈ QrLogger.authorized_users self
              ↔ code = "h65ld310" ∨ code = "d08ae169" ∨ is_Some (Users s !! code).
Proof.
  intros EJ ED.
  assert (Hinit : init s = (Ok (), (init s).2)).
  { rewrite UsersDao_init_eq, add_user_eq, EJ. cbv beta iota.
    rewrite add_user_eq, ED. reflexivity. }
  assert (Hmem : ∀ code, is_Some (Users (init s).2 !! code)
                 ↔ code = "h65ld310" ∨ code = "d08ae169" ∨ is_Some (Users s !! code)).
  { intros code. rewrite UsersDao_init_eq, add_user_eq, EJ. cbv beta iota.
    rewrite add_user_eq, ED. simpl.
    rewrite !insert_or_ignore_user_is_Some. tauto. }
  destruct (get_whitelist_rows (init s).2) as (wl & Hwl & Hnd & Hin).
  { intros E. assert (H : is_Some (Users (init s).2 !! "h65ld310")) by (apply Hmem; by left).
    rewrite E, lookup_empty in H. by destruct H. }
  exists (QrLogger.mk_logger wl). split; [|split; [exact Hnd|]].
  - rewrite QrLogger_init_eq, Hinit. unfold mbind, py_bind. rewrite Hwl. reflexivity.
  - intros code. simpl. rewrite Hin. apply Hmem.
Qed.


End Construction.

(** ** What no sequence of calls does to the two tables *)

Section Traces.
Import UsersDao QrLogger.
Context {lib : ImageLibrary} {frame : Type}.
Implicit Types (s : store) (code : string) (ts : timestamp) (now : reading)
  (c : call frame).

(** The shapes a single call can give the two tables. *)
Lemma exec_effect c s :
  (Users (exec s c) = Users s
   ∨ (∃ code u, Users s !! code = None ∧ Users (exec s c) = <[code := u]> (Users s))
   ∨ (∃ code new, Users (exec s c) = update_status code new (Users s)))
  ∧ (Logins (exec s c) = Logins s
     ∨ (∃ ts code, has_timestamp ts (Logins s) = false
                   ∧ Logins (exec s c) = Logins s ++ [mk_login ts None code])
     ∨ (∃ code t, Logins (exec s c) = close_row code t <$> Logins s)).
Proof.
  destruct c as [code f l e st|ts code|code t|code|i]; cbn [exec].
  - rewrite Users_add_user, Logins_add_user. split; [|by left].
    unfold insert_or_ignore_user. destruct (Users s !! code) eqn:E; [by left|].
    right. left. by exists code, (mk_user f l e st).
  - destruct (has_timestamp ts (Logins s)) eqn:E.
    + rewrite login_duplicate by exact E. split; by left.
    + rewrite login_fresh by exact E. split; [by left|]. right. left. by exists ts, code.
  - rewrite logout_eq. split; [by left|]. right. right. by exists code, t.
  - destruct (Users s !! code) as [u|] eqn:Hu.
    + destruct (status_cases u) as [Hst|[Hst|Hst]].
      * rewrite (set_status_to_active code u s Hu Hst).
        split; [|by left]. right. right. by exists code, "Active".
      * rewrite (set_status_to_inactive code u s Hu Hst).
        split; [|by left]. right. right. by exists code, "Inactive".
      * rewrite (set_status_unrecognized code u s Hu Hst). split; by left.
    + rewrite (set_status_absent code s Hu). split; by left.
  - destruct i as [fr [[code now]|]]; [|split; by left].
    destruct (Users s !! code) as [u|] eqn:Hu.
    + destruct (status_cases u) as [Hst|[Hst|Hst]].
      * destruct (has_timestamp (sqlite_text now) (Logins s)) eqn:Hts.
        -- rewrite (log_qr_activity_login_rejected fr code now u s Hu Hst Hts).
           split; [right; right; by exists code, "Active" | by left].
        -- rewrite (log_qr_activity_login fr code now u s Hu Hst Hts).
           split; [right; right; by exists code, "Active"|].
           right. left. by exists (sqlite_text now), code.
      * rewrite (log_qr_activity_logout fr code now u s Hu Hst).
        split; [right; right; by exists code, "Inactive"|].
        right. right. by exists code, (sqlite_text now).
      * rewrite (log_qr_activity_unrecognized fr code now u s Hu Hst).
        split; [by left|]. right. right. by exists code, (sqlite_text now).
    + rewrite (log_qr_activity_absent fr code now s Hu). split; by left.
Qed.

Lemma login_timestamp_close_rows code t (l : list login_row) :
  login_timestamp <$> (close_row code t <$> l) = login_timestamp <$> l.
Proof.
  rewrite <- list_fmap_compose. apply list_fmap_ext. intros i r _. simpl.
  unfold close_row. destruct (is_open code r); reflexivity.
Qed.

Lemma row_key_close_rows code t (l : list login_row) :
  row_key <$> (close_row code t <$> l) = row_key <$> l.
Proof.
  rewrite <- list_fmap_compose. apply list_fmap_ext. intros i r _. simpl.
  unfold close_row. destruct (is_open code r); reflexivity.
Qed.

Lemma timestamps_unique_exec c s :
  NoDup (login_timestamp <$> Logins s) → NoDup (login_timestamp <$> Logins (exec s c)).
Proof.
  intros H. destruct (exec_effect c s) as [_ [E|[(ts & code & Hts & E)|(code & t & E)]]];
    rewrite E.
  - exact H.
  - rewrite fmap_app. apply NoDup_app. split; [exact H|]. split; [|apply NoDup_singleton].
    intros x Hx Hx'. apply list_elem_of_singleton in Hx'. subst x.
    unfold has_timestamp in Hts. by apply bool_decide_eq_false_1 in Hts.
  - by rewrite login_timestamp_close_rows.
Qed.

(** X6.  The primary key of the ledger: whatever calls are made, in
    whatever order, no two rows of Logins ever carry the same timestamp
    (a login with a timestamp already there is rejected, for any user). *)
Theorem timestamps_stay_unique (calls : list (call frame)) s :
  NoDup (login_timestamp <$> Logins s) →
  NoDup (login_timestamp <$> Logins (foldl exec s calls)).
Proof.
  revert s. induction calls as [|c calls IH]; intros s H; [exact H|].
  simpl. apply IH. by apply timestamps_unique_exec.
Qed.

Lemma row_keys_exec c s :
  row_key <$> Logins s `prefix_of` row_key <$> Logins (exec s c).
Proof.
  destruct (exec_effect c s) as [_ [E|[(ts & code & Hts & E)|(code & t & E)]]];
    rewrite E.
  - reflexivity.
  - rewrite fmap_app. by apply prefix_app_r.
  - by rewrite row_key_close_rows.
Qed.

(** X7.  The ledger is append-only: no sequence of calls deletes a row,
    reorders rows, or changes the timestamp or the user of a row; rows are
    only added at the end. *)
Theorem ledger_append_only (calls : list (call frame)) s :
  row_key <$> Logins s `prefix_of` row_key <$> Logins (foldl exec s calls).
Proof.
  revert s. induction calls as [|c calls IH]; intros s; [reflexivity|].
  simpl. etrans; [apply (row_keys_exec c)|apply IH].
Qed.

Lemma closed_entry_exec c s i r :
  Logins s !! i = Some r → is_Some (logoutTime r) → Logins (exec s c) !! i = Some r.
Proof.
  intros Hi [t0 Ht0].
  destruct (exec_effect c s) as [_ [E|[(ts & code & Hts & E)|(code & t & E)]]];
    rewrite E.
  - exact Hi.
  - by apply lookup_app_l_Some.
  - rewrite list_lookup_fmap, Hi. simpl. f_equal. apply close_row_not_open.
    unfold is_open. rewrite Ht0, andb_false_r. reflexivity.
Qed.

(** X8.  A logout time is written once: a ledger row that has a logout
    time is never modified again by any sequence of calls, a later logout
    of the same user included. *)
Theorem closed_entry_final (calls : list (call frame)) s i r :
  Logins s !! i = Some r →
  is_Some (logoutTime r) →
  Logins (foldl exec s calls) !! i = Some r.
Proof.
  revert s. induction calls as [|c calls IH]; intros s Hi Hc; [exact Hi|].
  simpl. apply IH; [|exact Hc]. by apply closed_entry_exec.
Qed.

Lemma user_row_exec c s code u :
  Users s !! code = Some u →
  ∃ u', Users (exec s c) !! code = Some u'
    ∧ firstName u' = firstName u ∧ lastName u' = lastName u ∧ email u' = email u
    ∧ (status u ≠ None → status u' ≠ None).
Proof.
  intros Hu. destruct (exec_effect c s) as [[E|[(code' & v & Hn & E)|(code' & new & E)]] _];
    rewrite E.
  - by exists u.
  - exists u. rewrite lookup_insert_ne by (intros ->; congruence). done.
  - destruct (decide (code' = code)) as [->|Hne].
    + exists (with_status new u). rewrite (update_status_lookup code new u _ Hu).
      repeat split; try reflexivity. intros _. discriminate.
    + exists u. rewrite (update_status_lookup_ne code' code new _ Hne). done.
Qed.

(** X9.  No sequence of calls deletes a user or changes a user's names or
    email, and a status that has been set is never unset again (unset
    occurs only before the first scan of a user added without status). *)
Theorem user_rows_persist (calls : list (call frame)) s code u :
  Users s !! code = Some u →
  ∃ u', Users (foldl exec s calls) !! code = Some u'
    ∧ firstName u' = firstName u ∧ lastName u' = lastName u ∧ email u' = email u
    ∧ (status u ≠ None → status u' ≠ None).
Proof.
  revert s u. induction calls as [|c calls IH]; intros s u Hu; [by exists u|].
  simpl. destruct (user_row_exec c s code u Hu) as (u1 & Hu1 & Hf & Hl & He & Hs).
  destruct (IH _ _ Hu1) as (u' & Hu' & Hf' & Hl' & He' & Hs').
  exists u'. split; [exact Hu'|]. repeat split; try congruence. auto.
Qed.

End Traces.

Lemma timestamps_stay_unique_witness :
  NoDup (login_timestamp <$> Logins (foldl exec empty_store
    [ CallAddUser "h65ld310" "John" "Buck" "jbuck@gmail.com" None;
      CallLogin "1689700001.0" "h65ld310";
      CallLogin "1689700001.0" "d08ae169";
      CallLogQrActivity ((), Some ("h65ld310", clock_1));
      CallLogout "h65ld310" "1689700002.0" ])).
Proof.
  apply (timestamps_stay_unique (frame := ())). simpl. apply NoDup_nil_2.
Defined.

Lemma closed_entry_final_witness :
  Logins (foldl exec (scans () "h65ld310" [clock_1; clock_2] (UsersDao.init empty_store).2)
            [ CallLogout "h65ld310" "1689700003.0";
              CallLogQrActivity ((), Some ("h65ld310", clock_4));
              CallLogout "h65ld310" "1689700005.0" ]) !! 0
  = Some (mk_login "1689700001.0" (Some "1689700002.0") "h65ld310").
Proof.
  apply (closed_entry_final (frame := ())).
  - vm_compute. reflexivity.
  - simpl. by eexists.
Defined.

Lemma user_rows_persist_witness :
  ∃ u', Users (foldl exec (UsersDao.set_status "h65ld310" (UsersDao.init empty_store).2).2
                 [ CallAddUser "h65ld310" "Jon" "Bock" "jbock@gmail.com" None;
                   CallLogQrActivity ((), Some ("h65ld310", clock_1));
                   CallSetStatus "d08ae169" ]) !! "h65ld310" = Some u'
    ∧ firstName u' = "John" ∧ lastName u' = "Buck" ∧ email u' = "jbuck@gmail.com"
    ∧ (Some "Active" ≠ None → status u' ≠ None).
Proof.
  apply (user_rows_persist (frame := ()) _ _ "h65ld310"
           (mk_user "John" "Buck" "jbuck@gmail.com" (Some "Active"))).
  vm_compute. reflexivity.
Defined.

(** ** More on single scans and logouts *)

Section ScansMore.
Import UsersDao QrLogger.
Context {frame : Type}.
Implicit Types (fr : frame) (s : store) (code : string) (ts : timestamp) (now : reading)
  (l : list login_row).

(** X10.  A second logout of the same user changes nothing: the logout
    time recorded by the first stays, the time of the second is dropped,
    and no error is raised. *)
Theorem logout_twice code t1 t2 s :
  logout code t2 (logout code t1 s).2 = logout code t1 s.
Proof.
  rewrite !logout_eq. f_equal. unfold with_Logins. simpl. f_equal.
  rewrite <- list_fmap_compose. apply list_fmap_ext. intros i r _. simpl.
  apply close_row_not_open, is_open_close_row.
Qed.

Lemma rows_of_cons code r l :
  rows_of code (r :: l)
  = if decide (userCode r = code) then r :: rows_of code l else rows_of code l.
Proof. unfold rows_of. by rewrite filter_cons. Qed.

Lemma rows_of_close_rows_ne code code' t l :
  code ≠ code' → rows_of code' (close_row code t <$> l) = rows_of code' l.
Proof.
  intros Hne. induction l as [|r l IH]; [reflexivity|].
  rewrite fmap_cons, !rows_of_cons, IH.
  unfold close_row, is_open. destruct (decide (userCode r = code)) as [E|E].
  - rewrite (bool_decide_eq_true_2 _ E).
    destruct (bool_decide (logoutTime r = None)); simpl;
      repeat case_decide; congruence.
  - rewrite (bool_decide_eq_false_2 _ E). reflexivity.
Qed.

Lemma rows_of_snoc_ne code code' ts o l :
  code ≠ code' → rows_of code' (l ++ [mk_login ts o code]) = rows_of code' l.
Proof.
  intros Hne. unfold rows_of. rewrite filter_app, filter_cons. simpl.
  rewrite decide_False by exact Hne. rewrite filter_nil. apply app_nil_r.
Qed.

(** X11.  An accepted scan touches one user only: the row of every other
    user, the ledger rows of every other user and the provisioning images
    are left exactly as they were. *)
Theorem scan_touches_one_user fr code now s code' :
  code' ≠ code →
  let s' := (log_qr_activity (fr, Some (code, now)) s).2 in
  Users s' !! code' = Users s !! code'
  ∧ rows_of code' (Logins s') = rows_of code' (Logins s)
  ∧ qr_images s' = qr_images s.
Proof.
  intros Hne. cbv zeta.
  assert (Hne' : code ≠ code') by congruence.
  destruct (log_qr_activity_store fr code now s)
    as [[-> _]|[(u & Hu & Hst & [-> | ->])|[->|(u & Hu & Hst & ->)]]]; simpl.
  - done.
  - rewrite (update_status_lookup_ne code code' "Active" _ Hne').
    by rewrite rows_of_snoc_ne.
  - by rewrite (update_status_lookup_ne code code' "Active" _ Hne').
  - rewrite (update_status_lookup_ne code code' "Inactive" _ Hne').
    by rewrite rows_of_close_rows_ne.
  - by rewrite rows_of_close_rows_ne.
Qed.




End ScansMore.

Lemma scan_touches_one_user_witness :
  let s' := (QrLogger.log_qr_activity ((), Some ("h65ld310", clock_2)) jane_logged_in).2 in
  Users s' !! "d08ae169" = Users jane_logged_in !! "d08ae169"
  ∧ rows_of "d08ae169" (Logins s') = rows_of "d08ae169" (Logins jane_logged_in)
  ∧ qr_images s' = qr_images jane_logged_in.
Proof.
  apply (scan_touches_one_user () "h65ld310" clock_2 jane_logged_in "d08ae169"). discriminate.
Defined.



(** ** More on the deduplicator and the loop *)

Section RunMore.
Import UsersDao QrLogger.
Context {lib : ImageLibrary}.
Context {frame : Type} (decode : frame → outcome (list (option string))).
Implicit Types (self : t) (fr : frame) (now : reading) (recent : list string)
  (frames : list (frame * reading)) (s : store).

Lemma process_qr_decoded self fr now recent l :
  decode fr = Ok l →
  process_qr decode self fr now recent = (Ok (fr, None), recent)
  ∨ ∃ code rest, l = Some code :: rest
      ∧ process_qr decode self fr now recent
        = (Ok (fr, Some (code, now)), recent ++ [code])
      ∧ np_contains (authorized_users self) code = true ∧ last recent ≠ Some code.
Proof.
  intros Hd. unfold process_qr. rewrite Hd. destruct l as [|[data|] rest]; [by left| |by left].
  destruct (np_contains (authorized_users self) data) eqn:Hin; [|by left].
  destruct (bool_decide (length recent = 0) || bool_decide (last recent ≠ Some data)) eqn:Hl;
    [|by left].
  right. exists data, rest. split; [reflexivity|]. split; [reflexivity|]. split; [exact Hin|].
  apply orb_true_iff in Hl as [Hl|Hl]; apply bool_decide_eq_true_1 in Hl; [|exact Hl].
  destruct recent; [discriminate|discriminate].
Qed.

Lemma process_qr_recent self fr now recent :
  ((process_qr decode self fr now recent).2 = recent
   ∧ accepted (process_qr decode self fr now recent).1 = false)
  ∨ ∃ code, (process_qr decode self fr now recent).2 = recent ++ [code]
            ∧ accepted (process_qr decode self fr now recent).1 = true
            ∧ np_contains (authorized_users self) code = true ∧ last recent ≠ Some code.
Proof.
  destruct (decode fr) as [l|e] eqn:Hd.
  - destruct (process_qr_decoded self fr now recent l Hd)
      as [->|(code & rest & _ & -> & Hin & Hl)].
    + by left.
    + right. by exists code.
  - left. unfold process_qr. rewrite Hd. done.
Qed.

Lemma adjacent_distinct_snoc (l : list string) code :
  adjacent_distinct l → last l ≠ Some code → adjacent_distinct (l ++ [code]).
Proof.
  intros H Hl l1 x l2 E. destruct l2 as [|z l2 _] using rev_ind.
  - change (l1 ++ [x; x]) with (l1 ++ [x] ++ [x]) in E. rewrite app_assoc in E.
    apply app_inj_tail in E as [-> ->]. apply Hl. apply last_snoc.
  - assert (E' : l ++ [code] = (l1 ++ x :: x :: l2) ++ [z])
      by (rewrite E, <- app_assoc; reflexivity).
    apply app_inj_tail in E' as [-> _]. by apply (H l1 x l2).
Qed.

Lemma accepted_events_cons (r : outcome (info (frame := frame))) rs :
  accepted_events (r :: rs) = (if accepted r then 1 else 0) + accepted_events rs.
Proof. unfold accepted_events. simpl. destruct (accepted r); reflexivity. Qed.

(** X15.  Through any stretch of frames [recent_accesses] only grows at
    its end, by one code per accepted scan; it holds only payloads that
    the membership test on the cached whitelist lets through, and never
    the same one twice in a row. *)
Theorem recent_accesses_invariants self frames recent :
  adjacent_distinct recent →
  (∀ code, code ∈ recent → np_contains (authorized_users self) code = true) →
  let recent' := recent_after decode self frames recent in
  adjacent_distinct recent'
  ∧ (∀ code, code ∈ recent' → np_contains (authorized_users self) code = true)
  ∧ recent `prefix_of` recent'
  ∧ length recent' = length recent + accepted_events (process_frames decode self frames recent).
Proof.
  revert recent. induction frames as [|[fr now] frames IH]; intros recent Had Hwl; cbv zeta.
  - simpl. repeat split; try done; unfold accepted_events; simpl; lia.
  - simpl. rewrite accepted_events_cons.
    destruct (process_qr_recent self fr now recent) as [[-> ->]|(code & -> & -> & Hin & Hl)].
    + by apply IH.
    + destruct (IH (recent ++ [code])) as (H1 & H2 & H3 & H4).
      * by apply adjacent_distinct_snoc.
      * intros c Hc. apply elem_of_app in Hc as [Hc|Hc]; [by apply Hwl|].
        apply list_elem_of_singleton in Hc. by subst c.
      * split; [exact H1|]. split; [exact H2|]. split.
        -- etrans; [|exact H3]. by apply prefix_app_r.
        -- rewrite H4, length_app. simpl. lia.
Qed.

(** X16.  When the decoder raises on a frame, the handler of [process_qr]
    returns the list it never got to assign: the call raises
    UnboundLocalError whatever the decoder raised, [run] ends there with
    the store untouched and the frames after it are never processed. *)
Theorem decoder_failure_ends_run self fr now frames recent s e :
  decode fr = Raise e →
  process_qr decode self fr now recent = (Raise UnboundLocalError, recent)
  ∧ run_frames decode self ((fr, now) :: frames) recent s = (Raise UnboundLocalError, s).
Proof.
  intros Hd.
  assert (E : process_qr decode self fr now recent = (Raise UnboundLocalError, recent))
    by (unfold process_qr; by rewrite Hd).
  split; [exact E|]. simpl. unfold mbind, py_bind, run_frame. rewrite E. reflexivity.
Qed.

Lemma has_timestamp_snoc ts ts' o code (l : list login_row) :
  ts ≠ ts' → has_timestamp ts (l ++ [mk_login ts' o code]) = has_timestamp ts l.
Proof.
  intros Hne. unfold has_timestamp. apply bool_decide_ext.
  rewrite fmap_app, elem_of_app. simpl. rewrite list_elem_of_singleton. tauto.
Qed.

Lemma has_timestamp_close_rows ts code t (l : list login_row) :
  has_timestamp ts (close_row code t <$> l) = has_timestamp ts l.
Proof. unfold has_timestamp. by rewrite login_timestamp_close_rows. Qed.

Lemma run_frame_returns self fr now recent s l :
  (∀ code rest, l = Some code :: rest →
     np_contains (authorized_users self) code = true → is_Some (Users s !! code)) →
  decode fr = Ok l →
  has_timestamp (sqlite_text now) (Logins s) = false →
  ∃ s', run_frame decode self fr now recent s
        = (Ok (fr, (process_qr decode self fr now recent).2), s')
    ∧ (∀ code, is_Some (Users s !! code) → is_Some (Users s' !! code))
    ∧ (∀ ts, ts ≠ sqlite_text now →
         has_timestamp ts (Logins s') = has_timestamp ts (Logins s)).
Proof.
  intros Hwl Hd Hts. unfold run_frame.
  destruct (process_qr_decoded self fr now recent l Hd)
    as [->|(code & rest & El & -> & Hin & Hl)].
  - exists s. split; [reflexivity|done].
  - destruct (Hwl code rest El Hin) as [u Hu]. unfold mbind, py_bind.
    destruct (status_cases u) as [Hst|[Hst|Hst]].
    + rewrite (log_qr_activity_login fr code now u s Hu Hst Hts).
      exists (after_login code now s). split; [reflexivity|]. split.
      * intros c Hc. simpl. by apply is_Some_update_status.
      * intros ts Hne. simpl. by apply has_timestamp_snoc.
    + rewrite (log_qr_activity_logout fr code now u s Hu Hst).
      exists (after_logout code now s). split; [reflexivity|]. split.
      * intros c Hc. simpl. by apply is_Some_update_status.
      * intros ts Hne. simpl. apply has_timestamp_close_rows.
    + rewrite (log_qr_activity_unrecognized fr code now u s Hu Hst).
      exists (after_unrecognized code now s). split; [reflexivity|]. split.
      * intros c Hc. exact Hc.
      * intros ts Hne. simpl. apply has_timestamp_close_rows.
Qed.

(** X17.  [run] does not raise on a stretch of frames when the decoder
    returns on each of them, every first payload that the membership test
    lets through has a row, and the texts SQLite stores for the clock
    readings are pairwise distinct and none is yet a key of the ledger; it
    then leaves [recent_accesses] as the deduplicator alone computes
    it. *)
Theorem run_frames_returns self frames recent s :
  (∀ f code rest, f ∈ frames → decode f.1 = Ok (Some code :: rest) →
     np_contains (authorized_users self) code = true → is_Some (Users s !! code)) →
  (∀ f, f ∈ frames → ∃ l, decode f.1 = Ok l) →
  NoDup (sqlite_text <$> frames.*2) →
  (∀ f, f ∈ frames → has_timestamp (sqlite_text f.2) (Logins s) = false) →
  ∃ s', run_frames decode self frames recent s
        = (Ok (recent_after decode self frames recent), s').
Proof.
  revert recent s. induction frames as [|[fr now] frames IH]; intros recent s Hwl Hd Hnd Hts.
  - by exists s.
  - destruct (Hd (fr, now)) as [l Hl]; [by left|].
    rewrite !fmap_cons in Hnd. apply NoDup_cons in Hnd as [Hnow Hnd].
    destruct (run_frame_returns self fr now recent s l) as (s1 & E & Hkeep & Hsame).
    { intros code rest -> Hin. apply (Hwl (fr, now) code rest); [by left|exact Hl|exact Hin]. }
    { exact Hl. }
    { apply (Hts (fr, now)). by left. }
    destruct (IH (process_qr decode self fr now recent).2 s1) as [s' E'].
    + intros f code rest Hf Hdf Hin. apply Hkeep. apply (Hwl f code rest); [by right|done|done].
    + intros f Hf. apply Hd. by right.
    + exact Hnd.
    + intros f Hf. rewrite Hsame; [apply Hts; by right|].
      intros Heq. apply Hnow. simpl. rewrite <- Heq.
      apply list_elem_of_fmap. exists f.2. split; [reflexivity|].
      apply list_elem_of_fmap. by exists f.
    + exists s'. simpl. unfold mbind, py_bind. rewrite E. exact E'.
Qed.

Lemma np_contains_false (arr : list string) code :
  (∀ c, c ∈ arr → rstrip_nul c ≠ rstrip_nul code) → np_contains arr code = false.
Proof.
  intros H. unfold np_contains. apply bool_decide_eq_false_2.
  intros Hin. apply list_elem_of_fmap in Hin as (c & Hc & Hin).
  by apply (H c Hin).
Qed.

(** X18.  The whitelist is read once, when the logger is constructed.  A
    user added while the loop runs, whose code differs (trailing NUL
    characters aside) from every code that has a row, has a row at once,
    but a frame showing the new code is ignored (nothing at all changes)
    until the program is started again; a restart that writes the two
    seeded images gives a whitelist that holds the code. *)
Theorem added_user_unknown_until_restart (evs : list (event (frame := frame)))
    self recent code f l e st fr now rest :
  session (sys_run decode evs) = Some (self, recent) →
  (∀ c, is_Some (Users (disk (sys_run decode evs)) !! c) →
        rstrip_nul c ≠ rstrip_nul code) →
  decode fr = Ok (Some code :: rest) →
  let sys1 := sys_step decode (sys_run decode evs) (EvAddUser code f l e st) in
  is_Some (Users (disk sys1) !! code)
  ∧ sys_step decode sys1 (EvFrame fr now) = sys1
  ∧ (make_qr_error "h65ld310" ("John" +:+ "Buck" +:+ ".jpg") = None →
     make_qr_error "d08ae169" ("Jane" +:+ "Doe" +:+ ".jpg") = None →
     ∃ self', session (sys_step decode sys1 EvStart) = Some (self', [])
              ∧ code ∈ authorized_users self').
Proof.
  intros Hs Hu Hd. cbv zeta.
  assert (Hn : np_contains (authorized_users self) code = false).
  { apply np_contains_false. intros c Hin. apply Hu.
    by apply (whitelist_sound_sys_run decode evs self recent Hs c). }
  set (sys := sys_run decode evs) in *.
  change (sys_step decode sys (EvAddUser code f l e st))
    with {| disk := (add_user code f l e st (disk sys)).2; session := session sys |}.
  set (d1 := (add_user code f l e st (disk sys)).2).
  assert (Hrow : is_Some (Users d1 !! code)).
  { unfold d1. rewrite Users_add_user. apply insert_or_ignore_user_is_Some. by left. }
  rewrite Hs. split; [exact Hrow|]. split.
  - cbn [sys_step session disk].
    destruct (unmatched_code_no_effect decode self recent code fr now rest d1 Hn Hd)
      as [_ E].
    rewrite E. reflexivity.
  - intros EJ ED. cbn [sys_step session disk].
    destruct (QrLogger_init_returns d1 EJ ED) as (self' & E & _ & Hmem).
    rewrite E. exists self'. split; [reflexivity|]. apply Hmem. right. right. exact Hrow.
Qed.


End RunMore.

Lemma seeded_rows c :
  is_Some (Users (UsersDao.init empty_store).2 !! c) → c = "h65ld310" ∨ c = "d08ae169".
Proof.
  intros H.
  destruct (UsersDao_init_cases empty_store) as [E|E]; rewrite E in H;
    rewrite ?Users_add_user in H;
    repeat (apply insert_or_ignore_user_is_Some in H as [H|H]; [by auto|]);
    simpl in H; rewrite lookup_empty in H; by destruct H.
Qed.

Lemma recent_accesses_invariants_witness :
  let frames := [([Some "h65ld310"], clock_1); ([Some "h65ld310"], clock_2);
                 ([Some "d08ae169"], clock_3); ([Some "unknownQR"], clock_4);
                 ([Some nul_padded], clock_5)] in
  let recent' := recent_after shown seeded_logger frames [] in
  adjacent_distinct recent'
  ∧ (∀ code, code ∈ recent' →
       QrLogger.np_contains (QrLogger.authorized_users seeded_logger) code = true)
  ∧ [] `prefix_of` recent'
  ∧ length recent'
    = length ([] : list string)
      + accepted_events (process_frames shown seeded_logger frames []).
Proof.
  apply (recent_accesses_invariants shown seeded_logger).
  - intros l1 x l2 E. destruct l1; discriminate.
  - intros code H. by apply elem_of_nil in H.
Defined.

Lemma decoder_failure_ends_run_witness :
  let decode := λ fr : option (list (option string)),
                  match fr with Some l => Ok l | None => Raise IndexError end in
  QrLogger.process_qr decode seeded_logger None clock_1 [] = (Raise UnboundLocalError, [])
  ∧ QrLogger.run_frames decode seeded_logger
      [(None, clock_1); (Some [Some "h65ld310"], clock_2)] []
      (UsersDao.init empty_store).2
    = (Raise UnboundLocalError, (UsersDao.init empty_store).2).
Proof.
  apply (decoder_failure_ends_run
           (λ fr : option (list (option string)),
              match fr with Some l => Ok l | None => Raise IndexError end)
           seeded_logger None clock_1 [(Some [Some "h65ld310"], clock_2)] []
           (UsersDao.init empty_store).2 IndexError).
  reflexivity.
Defined.

Lemma run_frames_returns_witness :
  ∃ s', QrLogger.run_frames shown seeded_logger
          [([Some "h65ld310"], clock_1); ([], clock_2); ([Some "d08ae169"], clock_3)] []
          (UsersDao.init empty_store).2
        = (Ok (recent_after shown seeded_logger
                 [([Some "h65ld310"], clock_1); ([], clock_2); ([Some "d08ae169"], clock_3)]
                 []), s').
Proof.
  apply (run_frames_returns shown seeded_logger
           [([Some "h65ld310"], clock_1); ([], clock_2); ([Some "d08ae169"], clock_3)] []
           (UsersDao.init empty_store).2).
  - intros f code rest Hf Hd _.
    apply elem_of_cons in Hf as [->|Hf]; [injection Hd as <- _; vm_compute; by eexists|].
    apply elem_of_cons in Hf as [->|Hf]; [discriminate|].
    apply elem_of_cons in Hf as [->|Hf]; [injection Hd as <- _; vm_compute; by eexists|].
    by apply elem_of_nil in Hf.
  - intros f _. by exists f.1.
  - apply (bool_decide_unpack _). vm_compute. exact I.
  - intros f Hf. reflexivity.
Defined.

Lemma added_user_unknown_until_restart_witness :
  let sys1 := QrLogger.sys_step shown (QrLogger.sys_run shown [QrLogger.EvStart])
                (QrLogger.EvAddUser "a1b2c3d4" "Ann" "Lee" "alee@gmail.com" None) in
  is_Some (Users (QrLogger.disk sys1) !! "a1b2c3d4")
  ∧ QrLogger.sys_step shown sys1 (QrLogger.EvFrame [Some "a1b2c3d4"] clock_1) = sys1
  ∧ (make_qr_error "h65ld310" ("John" +:+ "Buck" +:+ ".jpg") = None →
     make_qr_error "d08ae169" ("Jane" +:+ "Doe" +:+ ".jpg") = None →
     ∃ self', QrLogger.session (QrLogger.sys_step shown sys1 QrLogger.EvStart)
              = Some (self', [])
              ∧ "a1b2c3d4" ∈ QrLogger.authorized_users self').
Proof.
  apply (added_user_unknown_until_restart shown [QrLogger.EvStart]
           seeded_logger [] "a1b2c3d4" "Ann" "Lee" "alee@gmail.com" None
           [Some "a1b2c3d4"] clock_1 []).
  - vm_compute. reflexivity.
  - intros c Hc.
    assert (Hc' : c = "h65ld310" ∨ c = "d08ae169") by (apply seeded_rows; exact Hc).
    destruct Hc' as [-> | ->]; vm_compute; discriminate.
  - reflexivity.
Defined.


(** ** What [set_status] returns *)

Section SetStatusResult.
Import UsersDao.
Implicit Types (s : store) (code : string).

(** X19.  The value [set_status] returns always agrees with the store it
    leaves: a returned 'Active' or 'Inactive' is the status now stored for
    the code and differs from the one found; a return without a value
    means the code has a row with some other status and nothing was
    written; the only exception is the TypeError for a code without a
    row, and then nothing was written either. *)
Theorem set_status_outcome code s :
  match set_status code s with
  | (Ok (Some new), s') =>
      status_of s' code = Some (Some new)
      ∧ (new = "Active" ∨ new = "Inactive")
      ∧ status_of s code ≠ Some (Some new)
  | (Ok None, s') =>
      s' = s ∧ ∃ u, Users s !! code = Some u ∧ ¬ tri_state (status u)
  | (Raise e, s') =>
      e = TypeError ∧ s' = s ∧ Users s !! code = None
  end.
Proof.
  destruct (Users s !! code) as [u|] eqn:Hu.
  - destruct (status_cases u) as [Hst|[Hst|Hst]].
    + rewrite (set_status_to_active code u s Hu Hst). unfold status_of.
      rewrite (lookup_update_status code "Active" u s Hu), Hu. simpl.
      split; [reflexivity|]. split; [by left|]. destruct Hst as [-> | ->]; discriminate.
    + rewrite (set_status_to_inactive code u s Hu Hst). unfold status_of.
      rewrite (lookup_update_status code "Inactive" u s Hu), Hu. simpl.
      split; [reflexivity|]. split; [by right|]. rewrite Hst. discriminate.
    + rewrite (set_status_unrecognized code u s Hu Hst). split; [reflexivity|]. by exists u.
  - rewrite (set_status_absent code s Hu). done.
Qed.

End SetStatusResult.
